(** * cerebras_analyzer: clone, collect, prompt, call, relay, clean up

    A shallow embedding of [src/python/cerebras_analyzer.py] and the
    properties of its specification.

    Conventions of the model.
    - A Python [str] is a [string]; one [ascii] stands for one character,
      so [len] is [String.length] and [s[:n]] is [substring 0 n s].
    - A [pathlib.Path] is the list of its [parts]; an absolute POSIX path
      has the anchor [/] as first part.
    - The file system is a tree of directories and files.  What git, the
      network and the random generator answer is read from an environment
      record, so every run is a function of the environment and of the
      initial state.
    - Library calls ([pathlib], [shutil], [json], [print]) are modelled by
      their documented behaviour; [print] is taken to succeed, and which
      removals the operating system refuses to [shutil.rmtree] is part of
      the environment. *)

From Stdlib Require Import String Ascii List Arith ZArith Lia Bool DecimalString.
Import ListNotations.
Set Warnings "-abstract-large-number".
Open Scope string_scope.
Open Scope list_scope.

Infix "+:+" := String.append (at level 60, right associativity).

(** ** Python strings *)

Module PyStr.

Definition nl : string := String (ascii_of_nat 10) EmptyString.
Definition dq : string := String (ascii_of_nat 34) EmptyString.

(** [str.lower] on the characters of the model. *)
Definition lower_ascii (c : ascii) : ascii :=
  let n := nat_of_ascii c in
  if ((65 <=? n) && (n <=? 90))%nat then ascii_of_nat (n + 32) else c.

Fixpoint lower (s : string) : string :=
  match s with
  | EmptyString => EmptyString
  | String c s' => String (lower_ascii c) (lower s')
  end.

(** [s.rfind(c)]: the last index of [c], [None] for Python's -1. *)
Fixpoint rfind (c : ascii) (s : string) : option nat :=
  match s with
  | EmptyString => None
  | String a s' =>
      match rfind c s' with
      | Some i => Some (S i)
      | None => if Ascii.eqb a c then Some 0 else None
      end
  end.

(** [sep.join(l)]. *)
Fixpoint join (sep : string) (l : list string) : string :=
  match l with
  | [] => EmptyString
  | [x] => x
  | x :: tl => x +:+ sep +:+ join sep tl
  end.

(** [str(n)] for a natural number. *)
Definition str_of_nat (n : nat) : string :=
  NilEmpty.string_of_uint (Nat.to_uint n).

(** [x in l] for a collection of strings. *)
Definition mem (x : string) (l : list string) : bool :=
  existsb (String.eqb x) l.

(** Source text of a literal in which a backquote stands for the double
    quote character. *)
Fixpoint quoted (s : string) : string :=
  match s with
  | EmptyString => EmptyString
  | String c s' =>
      if Ascii.eqb c "`"%char then dq +:+ quoted s' else String c (quoted s')
  end.

(** The number of newline characters: the number of lines of a text whose
    lines are all terminated. *)
Fixpoint count_nl (s : string) : nat :=
  match s with
  | EmptyString => 0
  | String c s' =>
      (if Ascii.eqb c (ascii_of_nat 10) then 1 else 0) + count_nl s'
  end.

End PyStr.
Import PyStr.

(** ** Exceptions and results *)

(** An exception is known by [type(exc).__name__] and [str(exc)]. *)
Record exn : Type := Exn { exc_type : string; exc_msg : string }.

Inductive result (A : Type) : Type :=
| Ok (a : A)
| Raise (e : exn).
Arguments Ok {A} a.
Arguments Raise {A} e.

(** ** pathlib *)

Definition path : Type := list string.

Module Path.

Definition is_anchor (p : path) : bool :=
  match p with
  | [a] => a =? "/"
  | _ => false
  end.

Definition is_absolute (p : path) : bool :=
  match p with
  | a :: _ => a =? "/"
  | [] => false
  end.

Fixpoint path_eqb (p q : path) : bool :=
  match p, q with
  | [], [] => true
  | x :: p', y :: q' => (x =? y) && path_eqb p' q'
  | _, _ => false
  end.

(** [p.parent]: the anchor and the empty path are their own parent. *)
Definition parent (p : path) : path :=
  if is_anchor p then p else removelast p.

(** [p.name]: the final component, empty for the anchor. *)
Definition name (p : path) : string :=
  if is_anchor p then EmptyString else last p EmptyString.

(** [p / seg]. *)
Definition joinpath (p : path) (seg : string) : path := p ++ [seg].

(** [p.suffix]. *)
Definition suffix (p : path) : string :=
  let nm := name p in
  match rfind "."%char nm with
  | Some i =>
      if ((0 <? i) && (i <? String.length nm - 1))%nat
      then substring i (String.length nm - i) nm
      else EmptyString
  | None => EmptyString
  end.

Fixpoint strip_prefix (other p : path) : option path :=
  match other with
  | [] => Some p
  | o :: other' =>
      match p with
      | [] => None
      | x :: p' => if x =? o then strip_prefix other' p' else None
      end
  end.

(** [p.relative_to(other)]: [None] stands for [ValueError]. *)
Definition relative_to (p other : path) : option path :=
  match other with
  | [] => if is_absolute p then None else Some p
  | _ => strip_prefix other p
  end.

(** [str(p)]. *)
Definition str (p : path) : string :=
  match p with
  | [] => "."
  | a :: tl => if a =? "/" then "/" +:+ join "/" tl else join "/" p
  end.

End Path.

(** ** The file system *)

#[warnings="-register-all"]
Inductive node : Type :=
| File (text : option string)
| Dir (entries : list (string * node)).

Module FS.

Definition entries : Type := list (string * node).

Fixpoint assoc (s : string) (es : entries) : option node :=
  match es with
  | [] => None
  | (k, c) :: tl => if k =? s then Some c else assoc s tl
  end.

Definition others (s : string) (es : entries) : entries :=
  filter (fun e => negb (fst e =? s)) es.

(** Replace, create or remove the entry named [s], in place. *)
Fixpoint alter_entry (f : option node -> option node) (s : string)
    (es : entries) : entries :=
  match es with
  | [] =>
      match f None with
      | Some v => [(s, v)]
      | None => []
      end
  | (k, c) :: tl =>
      if k =? s then
        match f (Some c) with
        | Some v => (k, v) :: others s tl
        | None => others s tl
        end
      else (k, c) :: alter_entry f s tl
  end.

(** The node reached from [n] along the segments [segs]. *)
Fixpoint walk (n : node) (segs : list string) : option node :=
  match segs with
  | [] => Some n
  | s :: rest =>
      match n with
      | Dir es =>
          match assoc s es with
          | Some c => walk c rest
          | None => None
          end
      | File _ => None
      end
  end.

(** Apply [f] to the entry at [segs]; nothing changes when the directory
    that should hold it is missing. *)
Fixpoint alter_at (f : option node -> option node) (n : node)
    (segs : list string) : node :=
  match segs with
  | [] => n
  | s :: rest =>
      match n with
      | Dir es =>
          match rest with
          | [] => Dir (alter_entry f s es)
          | _ :: _ =>
              match assoc s es with
              | Some c => Dir (alter_entry (fun _ => Some (alter_at f c rest)) s es)
              | None => n
              end
          end
      | File _ => n
      end
  end.

Record filesystem : Type := MkFS { fs_root : node; fs_cwd : list string }.

(** The segments below the anchor that a path denotes. *)
Definition resolve (fs : filesystem) (p : path) : list string :=
  match p with
  | a :: segs => if a =? "/" then segs else fs_cwd fs ++ p
  | [] => fs_cwd fs
  end.

Definition lookup (fs : filesystem) (p : path) : option node :=
  walk (fs_root fs) (resolve fs p).

Definition update (fs : filesystem) (f : option node -> option node)
    (p : path) : filesystem :=
  MkFS (alter_at f (fs_root fs) (resolve fs p)) (fs_cwd fs).

(** [p.exists()], [p.is_file()], [p.is_dir()]. *)
Definition exists_ (fs : filesystem) (p : path) : bool :=
  match lookup fs p with Some _ => true | None => false end.

Definition is_file (fs : filesystem) (p : path) : bool :=
  match lookup fs p with Some (File _) => true | _ => false end.

Definition is_dir (fs : filesystem) (p : path) : bool :=
  match lookup fs p with Some (Dir _) => true | _ => false end.

(** [pathlib.Path(os.getcwd())]. *)
Definition getcwd (fs : filesystem) : path := "/" :: fs_cwd fs.

(** [p.read_text(encoding=utf-8)]. *)
Definition read_text (fs : filesystem) (p : path) : result string :=
  match lookup fs p with
  | Some (File (Some text)) => Ok text
  | Some (File None) =>
      Raise (Exn "UnicodeDecodeError" "'utf-8' codec can't decode byte")
  | Some (Dir _) => Raise (Exn "IsADirectoryError" (Path.str p))
  | None => Raise (Exn "FileNotFoundError" (Path.str p))
  end.

(** [os.mkdir(p)]. *)
Definition os_mkdir (fs : filesystem) (p : path) : exn + filesystem :=
  match lookup fs p with
  | Some _ => inl (Exn "FileExistsError" (Path.str p))
  | None =>
      match lookup fs (Path.parent p) with
      | Some (Dir _) => inr (update fs (fun _ => Some (Dir [])) p)
      | Some (File _) => inl (Exn "NotADirectoryError" (Path.str p))
      | None => inl (Exn "FileNotFoundError" (Path.str p))
      end
  end.

(** [p.mkdir(parents=..., exist_ok=...)], as pathlib writes it on top of
    [os.mkdir]; the recursion on the parent is bounded by [fuel]. *)
Fixpoint mkdir_fuel (fuel : nat) (parents exist_ok : bool)
    (fs : filesystem) (p : path) : exn + filesystem :=
  match os_mkdir fs p with
  | inr fs' => inr fs'
  | inl e =>
      if exc_type e =? "FileNotFoundError" then
        if negb parents || Path.path_eqb (Path.parent p) p then inl e
        else
          match fuel with
          | 0 => inl e
          | S k =>
              match mkdir_fuel k true true fs (Path.parent p) with
              | inl e' => inl e'
              | inr fs1 => mkdir_fuel k false exist_ok fs1 p
              end
          end
      else if negb exist_ok || negb (is_dir fs p) then inl e
      else inr fs
  end.

Definition mkdir (parents exist_ok : bool) (fs : filesystem) (p : path)
    : exn + filesystem :=
  mkdir_fuel (List.length p) parents exist_ok fs p.

(** What [shutil.rmtree(..., ignore_errors=True)] leaves of the node [n]
    at the path [p]: the entries of a directory are removed first, then the
    directory itself; a removal that the operating system refuses ([deny])
    raises an error that is ignored, so the refused file or directory
    stays, and with it the directories that lead to it.  [None] when
    nothing is left. *)
Fixpoint rm_node (deny : path -> bool) (p : path) (n : node) : option node :=
  match n with
  | File t => if deny p then Some (File t) else None
  | Dir es =>
      match
        flat_map
          (fun e =>
             match rm_node deny (Path.joinpath p (fst e)) (snd e) with
             | Some c => [(fst e, c)]
             | None => []
             end) es
      with
      | [] => if deny p then Some (Dir []) else None
      | e :: rest => Some (Dir (e :: rest))
      end
  end.

(** [shutil.rmtree(p, ignore_errors=True)]: on a directory, what
    [rm_node] leaves; on a file or on a missing path the error is ignored
    and nothing changes. *)
Definition rmtree (deny : path -> bool) (fs : filesystem) (p : path)
    : filesystem :=
  update fs
         (fun o =>
            match o with
            | Some (Dir es) => rm_node deny p (Dir es)
            | other => other
            end) p.

End FS.

(** ** Source Collector *)

(** [root.rglob] with the pattern that matches every name: directories in pre-order, each one yielding all of
    its entries. *)
Fixpoint rglob_node (prefix : path) (n : node) : list path :=
  match n with
  | File _ => []
  | Dir es =>
      map (fun e => Path.joinpath prefix (fst e)) es ++
      flat_map (fun e => rglob_node (Path.joinpath prefix (fst e)) (snd e)) es
  end.

Definition rglob (fs : FS.filesystem) (root : path) : list path :=
  match FS.lookup fs root with
  | Some n => rglob_node root n
  | None => []
  end.

Definition SOURCE_EXTS : list string :=
  [".js"; ".ts"; ".jsx"; ".tsx"; ".py"; ".java"; ".go"; ".c"; ".cpp"].

Definition skip_dirs : list string :=
  ["node_modules"; ".git"; "dist"; "build"; "venv"; "__pycache__"].

(** One turn of the loop of [collect_source_files]. *)
Definition collect_step (fs : FS.filesystem) (files : list path) (p : path)
    : list path :=
  if existsb (fun skip => mem skip p) skip_dirs then files
  else if FS.is_file fs p && mem (lower (Path.suffix p)) SOURCE_EXTS
       then files ++ [p]
       else files.

Definition collect_source_files (fs : FS.filesystem) (root : path)
    : list path :=
  fold_left (collect_step fs) (rglob fs root) [].

(** ** Prompt Builder *)

Definition max_chars : nat := 15 * 1000.

Definition intro_text (repo_url branch : string) : string :=
  "You are an expert security auditor and software engineer. Perform a deep audit of the "
  +:+ "following repository:" +:+ nl
  +:+ "- URL: " +:+ repo_url +:+ nl
  +:+ "- Branch: " +:+ branch +:+ nl
  +:+ "Identify vulnerabilities, bugs, and performance issues. "
  +:+ "CRITICAL: Return the answer in STRICT JSON format with an 'issues' array." +:+ nl
  +:+ quoted "Schema: {`issues`: [{`file`:`path/to/file`,`line`:42,`type`:`security|bug|quality`,`msg`:`...`,`severity`:`CRITICAL|HIGH|MEDIUM|LOW`}]}" +:+ nl.

(** [if prefix: intro = prefix + newline + intro]; [None] and the empty
    string are both false. *)
Definition with_prefix (prefix : option string) (intro : string) : string :=
  match prefix with
  | Some (String _ _ as pre) => pre +:+ nl +:+ intro
  | _ => intro
  end.

(** The labeled section of one file. *)
Definition part_of (rel : path) (content : string) : string :=
  let snippet := substring 0 2000 content in
  nl +:+ "--- " +:+ Path.str rel +:+ " ---" +:+ nl +:+ snippet +:+ nl.

(** The loop of [build_prompt], from the body accumulated so far. *)
Fixpoint build_body (fs : FS.filesystem) (files : list path) (body : string)
    : result string :=
  match files with
  | [] => Ok body
  | f :: rest =>
      match Path.relative_to f (Path.parent (Path.parent f)) with
      | None => Raise (Exn "ValueError" (Path.str f))
      | Some rel =>
          match FS.read_text fs f with
          | Raise _ => build_body fs rest body
          | Ok content =>
              let part := part_of rel content in
              if (max_chars <? String.length body + String.length part)%nat
              then Ok body
              else build_body fs rest (body +:+ part)
          end
      end
  end.

Definition build_prompt (fs : FS.filesystem) (files : list path)
    (repo_url branch : string) (prefix : option string) : result string :=
  let intro := with_prefix prefix (intro_text repo_url branch) in
  match build_body fs files EmptyString with
  | Ok body => Ok (intro +:+ nl +:+ body)
  | Raise e => Raise e
  end.

(** ** The run: state, environment and effects *)

(** The body of the request sent to the completion endpoint. *)
Record request : Type := MkRequest {
  req_url : string;
  req_authorization : string;
  req_content_type : string;
  req_model : string;
  req_role : string;
  req_content : string;
  req_max_tokens : Z;
  req_temperature : string;
  req_response_format : string;
  req_timeout : string
}.

(** The module-level configuration, read once from the process
    environment. *)
Record config : Type := MkConfig {
  CEREBRAS_BASE_URL : string;
  CEREBRAS_API_KEY : string;
  CEREBRAS_MODEL_ID : string;
  CEREBRAS_MAX_TOKENS : Z
}.

(** What [git.Repo.clone_from] does to the destination directory. *)
Inductive clone_outcome : Type :=
| CloneOk (content : FS.entries)
| CloneFail (partial : FS.entries) (cause : exn).

(** The answers of the outside world during one run; [undeletable] holds
    the paths that the operating system refuses to unlink or to remove. *)
Record env : Type := MkEnv {
  env_config : config;
  uuid4_hex : string;
  clone_from : string -> string -> clone_outcome;
  post_chat : request -> exn + string;
  undeletable : path -> bool
}.

Record state : Type := MkState {
  st_fs : FS.filesystem;
  stdout : list string;
  stderr : list string;
  clone_calls : list (string * path * string);
  api_calls : list request;
  repo_path : option path
}.

(** A computation that reads and writes the state and returns or raises. *)
Definition M (A : Type) : Type := state -> result A * state.

Definition ret {A} (a : A) : M A := fun st => (Ok a, st).
Definition raise {A} (e : exn) : M A := fun st => (Raise e, st).

Definition bind {A B} (c : M A) (k : A -> M B) : M B :=
  fun st =>
    match c st with
    | (Ok a, st') => k a st'
    | (Raise e, st') => (Raise e, st')
    end.

(** [try: c except Exception as exc: h exc]. *)
Definition try_except {A} (c : M A) (h : exn -> M A) : M A :=
  fun st =>
    match c st with
    | (Ok a, st') => (Ok a, st')
    | (Raise e, st') => h e st'
    end.

(** [try: c finally: f]. *)
Definition try_finally {A} (c : M A) (f : M unit) : M A :=
  fun st =>
    match c st with
    | (r, st') =>
        match f st' with
        | (Ok _, st'') => (r, st'')
        | (Raise e, st'') => (Raise e, st'')
        end
    end.

Declare Scope run_scope.
Delimit Scope run_scope with run.
Notation "x <- c ;; k" := (bind c (fun x => k))
  (at level 61, c at next level, right associativity) : run_scope.
Notation "c ;; k" := (bind c (fun _ => k))
  (at level 61, right associativity) : run_scope.
Open Scope run_scope.

Definition gets {A} (f : state -> A) : M A := fun st => (Ok (f st), st).

Definition of_result {A} (r : result A) : M A := fun st => (r, st).

Definition set_fs (fs : FS.filesystem) : M unit :=
  fun st => (Ok tt, MkState fs (stdout st) (stderr st) (clone_calls st)
                            (api_calls st) (repo_path st)).

(** [print(s)]: one payload on the primary output channel. *)
Definition print (s : string) : M unit :=
  fun st => (Ok tt, MkState (st_fs st) (stdout st ++ [s]) (stderr st)
                            (clone_calls st) (api_calls st) (repo_path st)).

(** [sys.stderr.write(s)]. *)
Definition stderr_write (s : string) : M unit :=
  fun st => (Ok tt, MkState (st_fs st) (stdout st) (stderr st ++ [s])
                            (clone_calls st) (api_calls st) (repo_path st)).

Definition set_repo_path (p : option path) : M unit :=
  fun st => (Ok tt, MkState (st_fs st) (stdout st) (stderr st)
                            (clone_calls st) (api_calls st) p).

Definition log_clone (c : string * path * string) : M unit :=
  fun st => (Ok tt, MkState (st_fs st) (stdout st) (stderr st)
                            (clone_calls st ++ [c]) (api_calls st)
                            (repo_path st)).

Definition log_request (r : request) : M unit :=
  fun st => (Ok tt, MkState (st_fs st) (stdout st) (stderr st)
                            (clone_calls st) (api_calls st ++ [r])
                            (repo_path st)).

(** The characters written to the primary output channel. *)
Definition stdout_text (st : state) : string :=
  fold_right (fun s acc => s +:+ nl +:+ acc) EmptyString (stdout st).

(** [p.mkdir(parents=..., exist_ok=...)] as an effect. *)
Definition mkdir (parents exist_ok : bool) (p : path) : M unit :=
  fs <- gets st_fs ;;
  match FS.mkdir parents exist_ok fs p with
  | inl e => raise e
  | inr fs' => set_fs fs'
  end.

(** [shutil.rmtree(p, ignore_errors=True)] as an effect. *)
Definition rmtree (E : env) (p : path) : M unit :=
  fs <- gets st_fs ;;
  set_fs (FS.rmtree (undeletable E) fs p).

(** [git.Repo.clone_from(repo_url, to_path=..., branch=..., depth=1,
    single_branch=True)]. *)
Definition git_clone (E : env) (repo_url : string) (to_path : path)
    (branch : string) : M unit :=
  log_clone (repo_url, to_path, branch) ;;
  fs <- gets st_fs ;;
  match clone_from E repo_url branch with
  | CloneOk content =>
      set_fs (FS.update fs (fun _ => Some (Dir content)) to_path)
  | CloneFail partial cause =>
      set_fs (FS.update fs (fun _ => Some (Dir partial)) to_path) ;;
      raise cause
  end.

(** ** Repository Fetcher *)

Definition base_tmp (fs : FS.filesystem) : path :=
  Path.joinpath (FS.getcwd fs) "temp_clones".

Definition tmp_dir_of (fs : FS.filesystem) (hex : string) : path :=
  Path.joinpath (base_tmp fs) ("cerebra-" +:+ hex).

Definition shallow_clone (E : env) (repo_url branch : string) : M path :=
  fs <- gets st_fs ;;
  let base_tmp := base_tmp fs in
  mkdir false true base_tmp ;;
  let tmp_dir := Path.joinpath base_tmp ("cerebra-" +:+ uuid4_hex E) in
  mkdir true false tmp_dir ;;
  try_except
    (git_clone E repo_url tmp_dir branch)
    (fun exc =>
       rmtree E tmp_dir ;;
       raise (Exn "RuntimeError" ("Git clone failed: " +:+ exc_msg exc))) ;;
  ret tmp_dir.

(** ** Completion Client and Orchestrator *)

(** [json.dumps] of one character of a string, with [ensure_ascii]. *)
Definition hex_digit (n : nat) : ascii :=
  match get n "0123456789abcdef" with
  | Some c => c
  | None => "0"%char
  end.

Definition json_escape_char (c : ascii) : string :=
  let n := nat_of_ascii c in
  if (n =? 34)%nat then "\" +:+ dq
  else if (n =? 92)%nat then "\\"
  else if (n =? 10)%nat then "\n"
  else if (n =? 13)%nat then "\r"
  else if (n =? 9)%nat then "\t"
  else if (n =? 12)%nat then "\f"
  else if (n =? 8)%nat then "\b"
  else if ((n <? 32) || (126 <? n))%nat then
    "\u00" +:+ String (hex_digit (n / 16)) (String (hex_digit (n mod 16)) EmptyString)
  else String c EmptyString.

Fixpoint json_escape (s : string) : string :=
  match s with
  | EmptyString => EmptyString
  | String c s' => json_escape_char c +:+ json_escape s'
  end.

(** [json.dumps({error: msg})]. *)
Definition json_error (msg : string) : string :=
  quoted "{`error`: `" +:+ json_escape msg +:+ quoted "`}".

(** The request, the status check, the decoding of the answer and the
    extraction of [choices[0].message.content]. *)
Definition chat_completion (E : env) (r : request) : M string :=
  log_request r ;;
  match post_chat E r with
  | inl e => raise e
  | inr content => ret content
  end.

Definition analyze_repo (E : env) (repo_url branch : string)
    (prefix : option string) : M unit :=
  set_repo_path None ;;
  try_finally
    (try_except
       (stderr_write ("DEBUG: Starting analysis for " +:+ repo_url +:+
                      " on branch " +:+ branch +:+ nl) ;;
        stderr_write ("DEBUG: Attempting shallow clone..." +:+ nl) ;;
        p <- shallow_clone E repo_url branch ;;
        set_repo_path (Some p) ;;
        stderr_write ("DEBUG: Clone successful. Path: " +:+ Path.str p +:+ nl) ;;
        fs <- gets st_fs ;;
        let files := collect_source_files fs p in
        stderr_write ("DEBUG: Collected " +:+ str_of_nat (List.length files) +:+
                      " source files." +:+ nl) ;;
        prompt <- of_result (build_prompt fs files repo_url branch prefix) ;;
        stderr_write ("DEBUG: Prompt built. Size: " +:+
                      str_of_nat (String.length prompt) +:+ " chars." +:+ nl) ;;
        let url := CEREBRAS_BASE_URL (env_config E) +:+ "/chat/completions" in
        stderr_write ("DEBUG: Calling Cerebras API at " +:+ url +:+ "..." +:+ nl) ;;
        content <- chat_completion E
          (MkRequest url
             ("Bearer " +:+ CEREBRAS_API_KEY (env_config E))
             "application/json"
             (CEREBRAS_MODEL_ID (env_config E))
             "user" prompt
             (CEREBRAS_MAX_TOKENS (env_config E))
             "0.2" "json_object" "60.0") ;;
        stderr_write ("DEBUG: API call successful." +:+ nl) ;;
        print content)
       (fun exc =>
          let error_msg := "ERROR in Python analyzer: " +:+ exc_type exc +:+
                           ": " +:+ exc_msg exc in
          stderr_write (error_msg +:+ nl) ;;
          print (json_error error_msg)))
    (rp <- gets repo_path ;;
     fs <- gets st_fs ;;
     match rp with
     | Some p =>
         if FS.exists_ fs p then
           stderr_write ("DEBUG: Cleaning up temp directory..." +:+ nl) ;;
           rmtree E p
         else ret tt
     | None => ret tt
     end).

(** ** Start-up and entry point *)

(** What the process is started with: the environment variables (after
    [load_dotenv]), the builtin [int] on the strings it is given, and the
    answers of the outside world for the run. *)
Record world : Type := MkWorld {
  getenv : string -> option string;
  py_int : string -> result Z;
  w_uuid4_hex : string;
  w_clone_from : string -> string -> clone_outcome;
  w_post_chat : request -> exn + string;
  w_undeletable : path -> bool
}.

(** [os.getenv(key, default)]. *)
Definition getenv_default (W : world) (key default : string) : string :=
  match getenv W key with
  | Some v => v
  | None => default
  end.

(** [sys.exit(code)]: no handler encloses the calls of this program. *)
Definition sys_exit {A} (code : nat) : M A :=
  raise (Exn "SystemExit" (str_of_nat code)).

(** The module-level statements: the four configuration values, in the
    order of the source, then the check of the credential. *)
Definition module_init (W : world) : M config :=
  let base_url := getenv_default W "CEREBRAS_BASE_URL" "https://api.cerebras.net/v1" in
  let api_key := getenv W "CEREBRAS_API_KEY" in
  let model_id := getenv_default W "CEREBRAS_MODEL_ID" "llama3.1-70b" in
  max_tokens <- of_result (py_int W (getenv_default W "CEREBRAS_MAX_TOKENS" "4000")) ;;
  match api_key with
  | Some (String _ _ as key) => ret (MkConfig base_url key model_id max_tokens)
  | _ =>
      print (json_error "CEREBRAS_API_KEY not set in environment") ;;
      sys_exit 1
  end.

(** The script run as a program: the module-level statements, then the
    [__main__] block on [sys.argv]. *)
Definition main (W : world) (argv : list string) : M unit :=
  cfg <- module_init W ;;
  if (List.length argv <? 3)%nat then
    print (json_error
             "Usage: python cerebras_analyzer.py <repo_url> <branch> [prefix]") ;;
    sys_exit 1
  else
    let repo_url := nth 1 argv EmptyString in
    let branch := nth 2 argv EmptyString in
    let prefix :=
      if (3 <? List.length argv)%nat then Some (nth 3 argv EmptyString)
      else None in
    analyze_repo (MkEnv cfg (w_uuid4_hex W) (w_clone_from W) (w_post_chat W)
                        (w_undeletable W))
                 repo_url branch prefix.

(** The exit status of the process: 0 when the script runs to its end, 1
    on [sys.exit(1)] and on an exception that nothing catches. *)
Definition exit_status {A} (r : result A) : nat :=
  match r with
  | Ok _ => 0
  | Raise _ => 1
  end.

(** ** Definitions used to state the properties *)

(** The label that [build_prompt] prints for [f]. *)
Definition label_of (f : path) : path :=
  match Path.relative_to f (Path.parent (Path.parent f)) with
  | Some rel => rel
  | None => []
  end.

(** The formatted sections of the readable files, in order. *)
Fixpoint sections (fs : FS.filesystem) (files : list path) : list string :=
  match files with
  | [] => []
  | f :: rest =>
      match FS.read_text fs f with
      | Ok content => part_of (label_of f) content :: sections fs rest
      | Raise _ => sections fs rest
      end
  end.

Definition concat_str (l : list string) : string :=
  fold_right String.append EmptyString l.

(** The test of the loop body, as one boolean. *)
Definition keeps (fs : FS.filesystem) (p : path) : bool :=
  negb (existsb (fun skip => mem skip p) skip_dirs) &&
  (FS.is_file fs p && mem (lower (Path.suffix p)) SOURCE_EXTS).

(** The message of the error envelope. *)
Definition error_msg (e : exn) : string :=
  "ERROR in Python analyzer: " +:+ exc_type e +:+ ": " +:+ exc_msg e.

(** The request that [analyze_repo] sends for a prompt. *)
Definition completion_request (E : env) (prompt : string) : request :=
  MkRequest (CEREBRAS_BASE_URL (env_config E) +:+ "/chat/completions")
            ("Bearer " +:+ CEREBRAS_API_KEY (env_config E))
            "application/json"
            (CEREBRAS_MODEL_ID (env_config E))
            "user" prompt
            (CEREBRAS_MAX_TOKENS (env_config E))
            "0.2" "json_object" "60.0".

(** The [finally] block on the file system. *)
Definition cleanup (E : env) (fs : FS.filesystem) (p : path)
    : FS.filesystem :=
  if FS.exists_ fs p then FS.rmtree (undeletable E) fs p else fs.

(** The reading of C1 as it is written: the text on the primary output
    channel after the run is exactly one line. *)
Definition one_line_written (st : state) : Prop :=
  count_nl (stdout_text st) = 1.

(** The two paths part ways: neither is inside the other. *)
Fixpoint diverges (p q : list string) : bool :=
  match p, q with
  | x :: p', y :: q' => if x =? y then diverges p' q' else true
  | _, _ => false
  end.

(** The segments of the working area [temp_clones]. *)
Definition work_area (fs : FS.filesystem) : list string :=
  FS.fs_cwd fs ++ ["temp_clones"].

(** The state in which [analyze_repo] calls [shallow_clone]. *)
Definition before_clone (repo_url branch : string) (st : state) : state :=
  MkState (st_fs st) (stdout st)
          ((stderr st ++
            ["DEBUG: Starting analysis for " +:+ repo_url +:+
             " on branch " +:+ branch +:+ nl]) ++
           ["DEBUG: Attempting shallow clone..." +:+ nl])
          (clone_calls st) (api_calls st) None.

(** The environment that [main] hands to [analyze_repo]. *)
Definition env_of (W : world) (cfg : config) : env :=
  MkEnv cfg (w_uuid4_hex W) (w_clone_from W) (w_post_chat W)
        (w_undeletable W).

(** The [except] block, on the state in which the exception arrives. *)
Definition report (e : exn) (st : state) : state :=
  MkState (st_fs st) (stdout st ++ [json_error (error_msg e)])
          (stderr st ++ [error_msg e +:+ nl])
          (clone_calls st) (api_calls st) (repo_path st).

(** The [finally] block, on the state that the [try] statement leaves. *)
Definition finish (E : env) (st : state) : state :=
  match repo_path st with
  | Some p =>
      if FS.exists_ (st_fs st) p then
        MkState (FS.rmtree (undeletable E) (st_fs st) p) (stdout st)
                (stderr st ++ ["DEBUG: Cleaning up temp directory..." +:+ nl])
                (clone_calls st) (api_calls st) (repo_path st)
      else st
  | None => st
  end.

(** The state that the [try] statement of [analyze_repo] leaves, [except]
    block included, stage by stage. *)
Definition run_body (E : env) (repo_url branch : string)
    (prefix : option string) (st : state) : state :=
  match shallow_clone E repo_url branch (before_clone repo_url branch st) with
  | (Raise e, st1) => report e st1
  | (Ok p, st1) =>
      let fs1 := st_fs st1 in
      let files := collect_source_files fs1 p in
      let st2 :=
        MkState fs1 (stdout st1)
                ((stderr st1 ++
                  ["DEBUG: Clone successful. Path: " +:+ Path.str p +:+ nl]) ++
                 ["DEBUG: Collected " +:+ str_of_nat (List.length files) +:+
                  " source files." +:+ nl])
                (clone_calls st1) (api_calls st1) (Some p) in
      match build_prompt fs1 files repo_url branch prefix with
      | Raise e => report e st2
      | Ok prompt =>
          let url := CEREBRAS_BASE_URL (env_config E) +:+ "/chat/completions" in
          let st3 :=
            MkState fs1 (stdout st1)
                    ((stderr st2 ++
                      ["DEBUG: Prompt built. Size: " +:+
                       str_of_nat (String.length prompt) +:+ " chars." +:+ nl]) ++
                     ["DEBUG: Calling Cerebras API at " +:+ url +:+ "..." +:+ nl])
                    (clone_calls st1)
                    (api_calls st1 ++ [completion_request E prompt])
                    (Some p) in
          match post_chat E (completion_request E prompt) with
          | inl e => report e st3
          | inr content =>
              MkState fs1 (stdout st1 ++ [content])
                      (stderr st3 ++ ["DEBUG: API call successful." +:+ nl])
                      (clone_calls st1) (api_calls st3) (Some p)
          end
      end
  end.

(** The second file system has the working directory of the first and
    the same content at every path that parts ways with [area]. *)
Definition same_outside (area : list string) (fs fs' : FS.filesystem) : Prop :=
  FS.fs_cwd fs' = FS.fs_cwd fs /\
  forall q, diverges area q = true ->
            FS.walk (FS.fs_root fs') q = FS.walk (FS.fs_root fs) q.

(** The letters of the alphabet in the two cases, in order. *)
Definition upper_letters : string := "ABCDEFGHIJKLMNOPQRSTUVWXYZ".
Definition lower_letters : string := "abcdefghijklmnopqrstuvwxyz".

(** The index of the first occurrence of a character in a text. *)
Fixpoint position (c : ascii) (s : string) : option nat :=
  match s with
  | EmptyString => None
  | String a s' =>
      if Ascii.eqb a c then Some 0
      else match position c s' with
           | Some i => Some (S i)
           | None => None
           end
  end.

(** Two characters are the same up to case: they are equal, or one is a
    capital letter and the other the same letter in lower case. *)
Definition same_char_ignoring_case (a b : ascii) : bool :=
  Ascii.eqb a b ||
  match position a upper_letters, position b lower_letters with
  | Some i, Some j => (i =? j)%nat
  | _, _ => false
  end ||
  match position a lower_letters, position b upper_letters with
  | Some i, Some j => (i =? j)%nat
  | _, _ => false
  end.

(** Two texts are the same up to case, character by character. *)
Fixpoint same_ignoring_case (s t : string) : bool :=
  match s, t with
  | EmptyString, EmptyString => true
  | String a s', String b t' =>
      same_char_ignoring_case a b && same_ignoring_case s' t'
  | _, _ => false
  end.

(** The text holds no capital letter. *)
Fixpoint no_capital (s : string) : bool :=
  match s with
  | EmptyString => true
  | String c s' =>
      match position c upper_letters with
      | Some _ => false
      | None => no_capital s'
      end
  end.

(** The text holds no dot. *)
Fixpoint no_dot (s : string) : bool :=
  match s with
  | EmptyString => true
  | String c s' => negb (Ascii.eqb c "."%char) && no_dot s'
  end.

(** Every character. *)
Definition all_ascii : list ascii := map ascii_of_nat (seq 0 256).

(** Induction on a tree, with the property known for every entry of a
    directory. *)
Fixpoint node_induction (P : node -> Prop)
    (HF : forall t, P (File t))
    (HD : forall es, Forall (fun e => P (snd e)) es -> P (Dir es))
    (n : node) : P n :=
  match n with
  | File t => HF t
  | Dir es =>
      HD es
        ((fix all (es : FS.entries) : Forall (fun e => P (snd e)) es :=
            match es with
            | [] => Forall_nil _
            | e :: tl => Forall_cons e (node_induction P HF HD (snd e)) (all tl)
            end) es)
  end.


Module Examples.

Definition tree : node :=
  Dir [("w", Dir [("temp_clones", Dir [("cerebra-0a", Dir
    [("main.py", File (Some "print(1)"));
     ("README.md", File (Some "doc"));
     ("src", Dir [("a.JS", File (Some "let a"));
                  ("lib", Dir [("b.ts", File None); ("c.go", File (Some "package c"))]);
                  ("builder", Dir [("d.c", File (Some "int d;"))]);
                  ("build", Dir [("e.c", File (Some "int e;"))])]);
     ("node_modules", Dir [("m.js", File (Some "x"))])])])])].

Definition fs : FS.filesystem := FS.MkFS tree ["w"].
Definition root : path := ["/"; "w"; "temp_clones"; "cerebra-0a"].

Definition cfg : config :=
  MkConfig "https://api.cerebras.net/v1" "key" "llama3.1-70b" 4000%Z.

Definition fs0 : FS.filesystem := FS.MkFS (Dir [("w", Dir [])]) ["w"].

Definition st0 : state := MkState fs0 [] [] [] [] None.

Definition repo : FS.entries :=
  [("main.py", File (Some "print(1)"));
   ("bad.py", File None);
   ("src", Dir [("lib", Dir [("c.go", File (Some "package c"))])])].

(** A model answer that is a JSON object printed on three lines. *)
Definition pretty_json : string :=
  "{" +:+ nl +:+ quoted "  `issues`: []" +:+ nl +:+ "}".

(** The clone and the completion call both succeed. *)
Definition E_ok : env :=
  MkEnv cfg "0a" (fun _ _ => CloneOk repo) (fun _ => inr pretty_json)
        (fun _ => false).

(** The branch does not exist. *)
Definition E_no_branch : env :=
  MkEnv cfg "0a"
        (fun _ _ => CloneFail [(".git", Dir [])]
                      (Exn "GitCommandError" "Remote branch nope not found"))
        (fun _ => inr pretty_json) (fun _ => false).

(** The repository holds no source file. *)
Definition E_no_source : env :=
  MkEnv cfg "0a" (fun _ _ => CloneOk [("README.md", File (Some "doc"))])
        (fun _ => inr "{}") (fun _ => false).

(** Eight long source files in one directory. *)
Fixpoint filler (n : nat) : string :=
  match n with
  | 0 => EmptyString
  | S k => String "x" (filler k)
  end.

Definition long_names : list string :=
  ["a1.py"; "a2.py"; "a3.py"; "a4.py"; "a5.py"; "a6.py"; "a7.py"; "a8.py"].

Definition fs_long : FS.filesystem :=
  FS.MkFS
    (Dir [("r", Dir [("src",
       Dir (map (fun n => (n, File (Some (filler 3000)))) long_names))])])
    [].

(** A clone with a pack index that the operating system refuses to
    unlink, as for a read-only file. *)
Definition locked_repo : FS.entries :=
  [("main.py", File (Some "print(1)"));
   (".git", Dir [("HEAD", File (Some "ref")); ("pack.idx", File None)])].

Definition locked (p : path) : bool :=
  Path.path_eqb p ["/"; "w"; "temp_clones"; "cerebra-0a"; ".git"; "pack.idx"].

Definition E_locked : env :=
  MkEnv cfg "0a" (fun _ _ => CloneOk locked_repo) (fun _ => inr pretty_json)
        locked.

(** The branch does not exist, and the clone that fails leaves the locked
    pack index behind. *)
Definition E_locked_no_branch : env :=
  MkEnv cfg "0a"
        (fun _ _ => CloneFail [(".git", Dir [("pack.idx", File None)])]
                      (Exn "GitCommandError" "Remote branch nope not found"))
        (fun _ => inr pretty_json) locked.

(** The completion endpoint answers with a server error. *)
Definition E_api_down : env :=
  MkEnv cfg "0a" (fun _ _ => CloneOk repo)
        (fun _ => inl (Exn "HTTPStatusError"
                           "Server error '500 Internal Server Error'"))
        (fun _ => false).

(** A working directory that holds a file of its own. *)
Definition st_home : state :=
  MkState (FS.MkFS (Dir [("w", Dir [("notes.txt", File (Some "keep"))])]) ["w"])
          [] [] [] [] None.

(** The scratch directory of the run is there already. *)
Definition st_taken : state :=
  MkState
    (FS.MkFS
       (Dir [("w", Dir [("temp_clones",
          Dir [("cerebra-0a", Dir [("old.py", File (Some "x"))])])])])
       ["w"])
    [] [] [] [] None.

(** Eight long source files and a short one after them. *)
Definition fs_long_short : FS.filesystem :=
  FS.MkFS
    (Dir [("r", Dir [("src",
       Dir (map (fun n => (n, File (Some (filler 3000)))) long_names ++
            [("z.py", File (Some "pass"))]))])])
    [].

(** The builtin [int] on plain decimal numerals. *)
Fixpoint parse_digits (s : string) (acc : Z) : option Z :=
  match s with
  | EmptyString => Some acc
  | String c s' =>
      let n := nat_of_ascii c in
      if ((48 <=? n) && (n <=? 57))%nat
      then parse_digits s' (10 * acc + Z.of_nat (n - 48))%Z
      else None
  end.

Definition int_decimal (s : string) : result Z :=
  match s with
  | EmptyString => Raise (Exn "ValueError" "invalid literal for int()")
  | _ =>
      match parse_digits s 0%Z with
      | Some z => Ok z
      | None => Raise (Exn "ValueError" "invalid literal for int()")
      end
  end.

(** A process with the credential set and nothing else. *)
Definition W_ready : world :=
  MkWorld (fun k => if k =? "CEREBRAS_API_KEY" then Some "sk-1" else None)
          int_decimal "0a" (fun _ _ => CloneOk repo) (fun _ => inr "{}")
          (fun _ => false).

(** A process with an empty environment. *)
Definition W_no_key : world :=
  MkWorld (fun _ => None) int_decimal "0a" (fun _ _ => CloneOk repo)
          (fun _ => inr "{}") (fun _ => false).

(** A process whose token limit is not a number. *)
Definition W_bad_tokens : world :=
  MkWorld (fun k => if k =? "CEREBRAS_MAX_TOKENS" then Some "lots" else None)
          int_decimal "0a" (fun _ _ => CloneOk repo) (fun _ => inr "{}")
          (fun _ => false).

(** A run started below a directory named after a build output. *)
Definition st_build : state :=
  MkState (FS.MkFS (Dir [("home", Dir [("build", Dir [])])]) ["home"; "build"])
          [] [] [] [] None.

(** A working directory below a directory named after a build output. *)
Definition fs_build : FS.filesystem :=
  FS.MkFS
    (Dir [("home", Dir [("build", Dir [("temp_clones", Dir [("cerebra-0a",
       Dir [("main.py", File (Some "print(1)"))])])])])])
    ["home"; "build"].

End Examples.



(** * Properties *)

(** ** Strings and paths *)

Lemma length_append (a b : string) :
  String.length (a +:+ b) = String.length a + String.length b.
Proof. induction a as [|c a IH]; simpl; [reflexivity | now rewrite IH]. Qed.

Lemma append_assoc (a b c : string) : (a +:+ b) +:+ c = a +:+ b +:+ c.
Proof. induction a as [|x a IH]; simpl; [reflexivity | now rewrite IH]. Qed.

Lemma append_empty_r (a : string) : a +:+ EmptyString = a.
Proof. induction a as [|x a IH]; simpl; [reflexivity | now rewrite IH]. Qed.

Lemma length_substring_le (n m : nat) (s : string) :
  String.length (substring n m s) <= m.
Proof.
  revert n m; induction s as [|c s IH]; intros n m.
  - destruct n, m; simpl; lia.
  - destruct n as [|n].
    + destruct m as [|m]; simpl; [lia | specialize (IH 0 m); lia].
    + simpl. apply IH.
Qed.

(** [s[:n]] is the whole of [s] when [s] has at most [n] characters, and
    its first [n] characters otherwise. *)
Lemma substring_head (m : nat) (s : string) :
  exists tail, s = substring 0 m s +:+ tail /\
               (String.length s <= m -> tail = EmptyString) /\
               (m < String.length s -> String.length (substring 0 m s) = m).
Proof.
  revert m; induction s as [|c s IH]; intros m.
  - exists EmptyString. destruct m; simpl; repeat split; auto; lia.
  - destruct m as [|m].
    + exists (String c s). simpl. repeat split; auto; lia.
    + destruct (IH m) as (tail & Heq & Hsmall & Hbig).
      exists tail. simpl. repeat split.
      * now rewrite <- Heq.
      * intros H. apply Hsmall. lia.
      * intros H. rewrite Hbig; lia.
Qed.

Module PathFacts.
Import Path.

Lemma parent_prefix (p : path) : exists r, p = parent p ++ r.
Proof.
  unfold parent. destruct (is_anchor p).
  - exists []. now rewrite app_nil_r.
  - destruct p as [|x p'].
    + now exists [].
    + exists [last (x :: p') EmptyString].
      apply app_removelast_last. discriminate.
Qed.

Lemma parent_absolute (p : path) :
  is_absolute p = true -> is_absolute (parent p) = true.
Proof.
  unfold parent. destruct (is_anchor p) eqn:Ha; [auto|].
  destruct p as [|x [|y p']]; simpl in *; try congruence.
Qed.

Lemma path_eqb_refl (p : path) : path_eqb p p = true.
Proof.
  induction p as [|x p IH]; simpl; [reflexivity|].
  now rewrite String.eqb_refl.
Qed.

(** A path that is not its own parent loses one part. *)
Lemma parent_shorter (p : path) :
  path_eqb (parent p) p = false -> S (List.length (parent p)) = List.length p.
Proof.
  unfold parent. destruct (is_anchor p).
  - now rewrite path_eqb_refl.
  - destruct p as [|x p']; [discriminate|]. intros _.
    rewrite (app_removelast_last EmptyString (l := x :: p')) at 2
      by discriminate.
    rewrite length_app. simpl. lia.
Qed.

Lemma strip_prefix_app (o r : path) : strip_prefix o (o ++ r) = Some r.
Proof.
  induction o as [|x o IH]; simpl; [reflexivity|].
  now rewrite String.eqb_refl.
Qed.

(** The anchor of [relative_to] in [build_prompt] is always an ancestor:
    the call never raises. *)
Lemma relative_to_grandparent (f : path) :
  exists rel, relative_to f (parent (parent f)) = Some rel /\
              f = parent (parent f) ++ rel.
Proof.
  destruct (parent_prefix f) as [r1 H1].
  destruct (parent_prefix (parent f)) as [r2 H2].
  assert (Hf : f = parent (parent f) ++ (r2 ++ r1)).
  { rewrite app_assoc, <- H2. exact H1. }
  exists (r2 ++ r1). split; [|exact Hf].
  unfold relative_to.
  destruct (parent (parent f)) as [|a gp] eqn:Hgp.
  - destruct (is_absolute f) eqn:Habs.
    + apply parent_absolute, parent_absolute in Habs.
      rewrite Hgp in Habs. discriminate.
    + simpl in Hf. now rewrite <- Hf.
  - rewrite Hf at 1. apply strip_prefix_app.
Qed.

(** A path with a last part has the rest as parent. *)
Lemma parent_snoc (p : path) (s : string) : parent (p ++ [s]) = p \/ p = [].
Proof.
  destruct p as [|x p']; [now right|left].
  unfold parent.
  replace (is_anchor ((x :: p') ++ [s])) with false
    by (destruct p'; reflexivity).
  apply removelast_last.
Qed.

End PathFacts.

Example suffix_examples :
  Path.suffix ["/"; "r"; "x.tar.GZ"] = ".GZ" /\
  Path.suffix ["/"; "r"; ".bashrc"] = EmptyString /\
  Path.suffix ["/"; "r"; "trailing."] = EmptyString /\
  Path.suffix ["/"; "r"; "Makefile"] = EmptyString /\
  lower ".TSX" = ".tsx" /\
  Path.parent ["/"] = ["/"] /\
  Path.parent ["/"; "r"] = ["/"] /\
  Path.relative_to ["/"; "r"; "a"] ["/"; "q"] = None /\
  Path.str ["/"; "r"; "a.py"] = "/r/a.py" /\
  Path.str ["src"; "a.py"] = "src/a.py".
Proof. repeat split. Qed.

(** ** Prompt Builder *)

Section Prompt.
Variable fs : FS.filesystem.

Lemma build_body_step (f : path) (rest : list path) (body : string) :
  build_body fs (f :: rest) body =
  match FS.read_text fs f with
  | Raise _ => build_body fs rest body
  | Ok content =>
      let part := part_of (label_of f) content in
      if (max_chars <? String.length body + String.length part)%nat
      then Ok body
      else build_body fs rest (body +:+ part)
  end.
Proof.
  unfold label_of. simpl.
  destruct (PathFacts.relative_to_grandparent f) as (rel & -> & _).
  reflexivity.
Qed.

Lemma build_body_sections (files : list path) (body : string) :
  String.length body <= max_chars ->
  exists k,
    build_body fs files body = Ok (body +:+ concat_str (firstn k (sections fs files)))
    /\ String.length (body +:+ concat_str (firstn k (sections fs files))) <= max_chars
    /\ (k < List.length (sections fs files) ->
        max_chars <
        String.length (body +:+ concat_str (firstn (S k) (sections fs files)))).
Proof.
  revert body; induction files as [|f rest IH]; intros body Hb.
  - exists 0. simpl. rewrite append_empty_r. repeat split; auto. lia.
  - rewrite build_body_step. cbn [sections].
    destruct (FS.read_text fs f) as [content|e]; [|now apply IH].
    cbv zeta.
    destruct (max_chars <? _)%nat eqn:Hover.
    + apply Nat.ltb_lt in Hover.
      exists 0. simpl. rewrite !append_empty_r. repeat split; auto.
      intros _. now rewrite length_append.
    + apply Nat.ltb_ge in Hover.
      destruct (IH (body +:+ part_of (label_of f) content)) as (k & Hrun & Hle & Hnext).
      { now rewrite length_append. }
      exists (S k). cbn [firstn concat_str fold_right List.length].
      fold (concat_str (firstn k (sections fs rest))).
      rewrite append_assoc in Hrun, Hle.
      repeat split; auto.
      intros Hk. specialize (Hnext ltac:(lia)).
      cbn [firstn concat_str fold_right] in Hnext.
      now rewrite append_assoc in Hnext.
Qed.

Lemma build_body_skip (l1 l2 : list path) (f : path) (body : string) (e : exn) :
  FS.read_text fs f = Raise e ->
  build_body fs (l1 ++ f :: l2) body = build_body fs (l1 ++ l2) body.
Proof.
  intros Hread. revert body; induction l1 as [|g l1 IH]; intros body.
  - simpl app. rewrite build_body_step, Hread. reflexivity.
  - simpl app. rewrite !build_body_step.
    destruct (FS.read_text fs g); [|apply IH].
    cbv zeta. destruct (max_chars <? _)%nat; [reflexivity | apply IH].
Qed.

End Prompt.

(** The label keeps the last two parts of the path and nothing else. *)
Lemma label_last_two (p : path) (d n : string) :
  p <> [] -> label_of (p ++ [d; n]) = [d; n].
Proof.
  intros Hp. unfold label_of.
  replace (p ++ [d; n]) with ((p ++ [d]) ++ [n])
    by now rewrite <- app_assoc.
  destruct (PathFacts.parent_snoc (p ++ [d]) n) as [-> | H];
    [|now destruct p].
  destruct (PathFacts.parent_snoc p d) as [-> | H]; [|contradiction].
  unfold Path.relative_to. destruct p as [|x p']; [contradiction|].
  rewrite <- app_assoc, PathFacts.strip_prefix_app. reflexivity.
Qed.

(** Head truncation: the section holds the first 2000 characters of the
    content, all of it when it is shorter. *)
Lemma part_of_head (rel : path) (content : string) :
  exists tail,
    content = substring 0 2000 content +:+ tail /\
    String.length (substring 0 2000 content) <= 2000 /\
    part_of rel content =
      nl +:+ "--- " +:+ Path.str rel +:+ " ---" +:+ nl +:+
      substring 0 2000 content +:+ nl.
Proof.
  destruct (substring_head 2000 content) as (tail & Heq & _ & _).
  exists tail. repeat split; auto. apply length_substring_le.
Qed.

(** ** Source Collector *)

Lemma mem_In (x : string) (l : list string) : mem x l = true <-> In x l.
Proof.
  unfold mem. rewrite existsb_exists. split.
  - intros (y & Hy & Heq). apply String.eqb_eq in Heq. now subst.
  - intros H. exists x. split; [exact H | apply String.eqb_refl].
Qed.

Lemma collect_fold (fs : FS.filesystem) (l acc : list path) :
  fold_left (collect_step fs) l acc = acc ++ filter (keeps fs) l.
Proof.
  revert acc; induction l as [|p l IH]; intros acc; simpl.
  - now rewrite app_nil_r.
  - rewrite IH. unfold collect_step, keeps.
    destruct (existsb _ skip_dirs); simpl; [reflexivity|].
    destruct (FS.is_file fs p && _); simpl; [|reflexivity].
    now rewrite <- app_assoc.
Qed.

Lemma collect_filter (fs : FS.filesystem) (root : path) :
  collect_source_files fs root = filter (keeps fs) (rglob fs root).
Proof. unfold collect_source_files. now rewrite collect_fold. Qed.

Lemma filter_none {A} (f : A -> bool) (l : list A) :
  (forall x, In x l -> f x = false) -> filter f l = [].
Proof.
  induction l as [|x l IH]; intros H; simpl; [reflexivity|].
  rewrite (H x (or_introl eq_refl)). apply IH.
  intros y Hy. apply H. now right.
Qed.

Lemma skipped_iff (p : path) :
  existsb (fun skip => mem skip p) skip_dirs = true <->
  exists seg, In seg p /\ In seg skip_dirs.
Proof.
  rewrite existsb_exists. split.
  - intros (skip & Hin & Hmem). apply mem_In in Hmem. now exists skip.
  - intros (seg & Hp & Hs). exists seg. split; [exact Hs | now apply mem_In].
Qed.

Lemma keeps_iff (fs : FS.filesystem) (p : path) :
  keeps fs p = true <->
  FS.is_file fs p = true /\
  In (lower (Path.suffix p)) SOURCE_EXTS /\
  (forall seg, In seg p -> ~ In seg skip_dirs).
Proof.
  unfold keeps. rewrite !andb_true_iff, negb_true_iff, mem_In.
  split.
  - intros (Hskip & Hfile & Hext). repeat split; auto.
    intros seg Hp Hs.
    assert (H : existsb (fun skip => mem skip p) skip_dirs = true)
      by (apply skipped_iff; now exists seg).
    congruence.
  - intros (Hfile & Hext & Hseg). repeat split; auto.
    destruct (existsb _ skip_dirs) eqn:H; [|reflexivity].
    apply skipped_iff in H. destruct H as (seg & Hp & Hs).
    now destruct (Hseg seg Hp).
Qed.

(** Every path that the traversal yields lies strictly below its start. *)
Lemma rglob_node_below (n : node) :
  forall prefix p, In p (rglob_node prefix n) ->
  exists rel, rel <> [] /\ p = prefix ++ rel.
Proof.
  induction n as [t | es IH] using node_induction; intros prefix p Hin.
  - contradiction.
  - simpl in Hin. apply in_app_or in Hin. destruct Hin as [Hin | Hin].
    + apply in_map_iff in Hin. destruct Hin as (e & <- & _).
      exists [fst e]. split; [discriminate | reflexivity].
    + apply in_flat_map in Hin. destruct Hin as (e & He & Hin).
      rewrite Forall_forall in IH.
      destruct (IH e He _ _ Hin) as (rel & _ & ->).
      exists (fst e :: rel). split; [discriminate|].
      unfold Path.joinpath. now rewrite <- app_assoc.
Qed.

Lemma rglob_below (fs : FS.filesystem) (root p : path) :
  In p (rglob fs root) -> exists rel, rel <> [] /\ p = root ++ rel.
Proof.
  unfold rglob. destruct (FS.lookup fs root); [|contradiction].
  apply rglob_node_below.
Qed.

(** ** The file system *)

Module FSFacts.
Import FS.

Lemma assoc_others (s : string) (es : entries) : assoc s (others s es) = None.
Proof.
  induction es as [|[k c] tl IH]; simpl; [reflexivity|].
  destruct (k =? s) eqn:Hk; simpl; [exact IH | now rewrite Hk].
Qed.

Lemma assoc_alter_entry f (s : string) (es : entries) :
  assoc s (alter_entry f s es) = f (assoc s es).
Proof.
  induction es as [|[k c] tl IH]; simpl.
  - destruct (f None); simpl; [now rewrite String.eqb_refl | reflexivity].
  - destruct (k =? s) eqn:Hk.
    + destruct (f (Some c)); simpl; [now rewrite Hk | apply assoc_others].
    + simpl. now rewrite Hk.
Qed.

Lemma walk_app (n : node) (p q : list string) :
  walk n (p ++ q) =
  match walk n p with
  | Some c => walk c q
  | None => None
  end.
Proof.
  revert n; induction p as [|s p IH]; intros n; simpl; [reflexivity|].
  destruct n as [t|es]; [reflexivity|].
  destruct (assoc s es); [apply IH | reflexivity].
Qed.

Lemma walk_one (n : node) (s : string) :
  walk n [s] = match n with Dir es => assoc s es | File _ => None end.
Proof. simpl. destruct n; [reflexivity|]. now destruct (assoc s entries0). Qed.

Lemma alter_at_cons (f : option node -> option node) (es : entries)
    (a : string) (segs : list string) (s : string) :
  alter_at f (Dir es) (a :: segs ++ [s]) =
  match assoc a es with
  | Some c =>
      Dir (alter_entry (fun _ => Some (alter_at f c (segs ++ [s]))) a es)
  | None => Dir es
  end.
Proof. simpl. now destruct (segs ++ [s]) eqn:H; [destruct segs|]. Qed.

(** Altering the entry of an existing directory is seen by the next
    lookup. *)
Lemma walk_alter_at f (segs : list string) (s : string) :
  forall n es,
    walk n segs = Some (Dir es) ->
    walk (alter_at f n (segs ++ [s])) (segs ++ [s]) = f (walk n (segs ++ [s])).
Proof.
  induction segs as [|a segs IH]; intros n es Hw.
  - simpl in Hw. injection Hw as ->.
    cbn [app alter_at]. rewrite !walk_one. apply assoc_alter_entry.
  - destruct n as [t|es0]; [discriminate|].
    simpl in Hw. cbn [app]. rewrite alter_at_cons.
    destruct (assoc a es0) as [c|] eqn:Ha; [|discriminate].
    cbn [walk]. rewrite assoc_alter_entry, Ha. now apply IH with (es := es).
Qed.

(** A removed entry is not found any more, whatever the tree. *)
Lemma walk_removed (segs : list string) (s : string) :
  forall n, walk (alter_at (fun _ => None) n (segs ++ [s])) (segs ++ [s]) = None.
Proof.
  induction segs as [|a segs IH]; intros n.
  - cbn [app]. destruct n as [t|es]; [reflexivity|].
    cbn [alter_at]. rewrite walk_one. apply assoc_alter_entry.
  - cbn [app]. destruct n as [t|es]; [reflexivity|].
    rewrite alter_at_cons.
    destruct (assoc a es) as [c|] eqn:Ha.
    + cbn [walk]. rewrite assoc_alter_entry. apply IH.
    + cbn [walk]. now rewrite Ha.
Qed.

Section Paths.
Variable fs : filesystem.
Variable hex : string.

Let base : path := Path.joinpath (getcwd fs) "temp_clones".
Let tmp : path := Path.joinpath base ("cerebra-" +:+ hex).

Lemma parent_tmp : Path.parent tmp = base.
Proof.
  unfold tmp, Path.joinpath.
  destruct (PathFacts.parent_snoc base ("cerebra-" +:+ hex)) as [H | H];
    [exact H | discriminate].
Qed.

Lemma parent_base : Path.parent base = getcwd fs.
Proof.
  unfold base, Path.joinpath.
  destruct (PathFacts.parent_snoc (getcwd fs) "temp_clones") as [H | H];
    [exact H | discriminate].
Qed.

End Paths.

Lemma os_mkdir_inr (fs fs' : filesystem) (p : path) :
  os_mkdir fs p = inr fs' ->
  lookup fs p = None /\
  (exists es, lookup fs (Path.parent p) = Some (Dir es)) /\
  fs' = update fs (fun _ => Some (Dir [])) p.
Proof.
  unfold os_mkdir. destruct (lookup fs p); [discriminate|].
  destruct (lookup fs (Path.parent p)) as [[t|es]|]; try discriminate.
  intros [= <-]. repeat split. now exists es.
Qed.

Lemma os_mkdir_inl (fs : filesystem) (p : path) (e : exn) :
  os_mkdir fs p = inl e ->
  (exc_type e =? "FileNotFoundError") = true ->
  lookup fs (Path.parent p) = None.
Proof.
  unfold os_mkdir. destruct (lookup fs p).
  - intros [= <-]. discriminate.
  - destruct (lookup fs (Path.parent p)) as [[t|es]|]; try discriminate.
    + intros [= <-]. discriminate.
    + reflexivity.
Qed.

(** [mkdir(exist_ok=True)] returns with the directory in place: it was
    there, or [os.mkdir] made it. *)
Lemma mkdir_exist_ok (fs fs' : filesystem) (p : path) :
  mkdir false true fs p = inr fs' ->
  (fs' = fs /\ is_dir fs p = true) \/ os_mkdir fs p = inr fs'.
Proof.
  unfold mkdir.
  destruct (List.length p); cbn [mkdir_fuel];
    (destruct (os_mkdir fs p) as [e|fs1]; [|now right]);
    (destruct (exc_type e =? "FileNotFoundError"); [discriminate|]);
    cbn [negb orb];
    (destruct (is_dir fs p); cbn [negb]; [|discriminate]);
    intros [= <-]; now left.
Qed.

(** With its parent in place, [mkdir(parents=True, exist_ok=False)] is
    [os.mkdir]. *)
Lemma mkdir_fresh (fs : filesystem) (p : path) :
  is_dir fs (Path.parent p) = true ->
  mkdir true false fs p = os_mkdir fs p.
Proof.
  intros Hpar. unfold mkdir.
  destruct (List.length p); cbn [mkdir_fuel];
    (destruct (os_mkdir fs p) as [e|fs1] eqn:Hos; [|reflexivity]);
    (destruct (exc_type e =? "FileNotFoundError") eqn:He; [|reflexivity]);
    apply (os_mkdir_inl _ _ _ Hos) in He;
    unfold is_dir in Hpar; rewrite He in Hpar; discriminate.
Qed.

(** An update that leaves a missing entry missing is seen by the next
    lookup, whatever the tree. *)
Lemma walk_alter_at_strict f (segs : list string) (s : string) :
  f None = None ->
  forall n,
    walk (alter_at f n (segs ++ [s])) (segs ++ [s]) = f (walk n (segs ++ [s])).
Proof.
  intros Hf. induction segs as [|a segs IH]; intros n.
  - cbn [app]. destruct n as [t|es]; [cbn [alter_at walk]; now rewrite Hf|].
    cbn [alter_at]. rewrite !walk_one. apply assoc_alter_entry.
  - cbn [app]. destruct n as [t|es]; [cbn [alter_at walk]; now rewrite Hf|].
    rewrite alter_at_cons.
    destruct (assoc a es) as [c|] eqn:Ha.
    + cbn [walk]. rewrite assoc_alter_entry, Ha. apply IH.
    + cbn [walk]. now rewrite Ha, Hf.
Qed.

(** When no removal below [p] is refused, [shutil.rmtree] leaves nothing
    of a node at [p]. *)
Lemma rm_node_clean (deny : path -> bool) (n : node) :
  forall p, (forall rel, deny (p ++ rel) = false) -> rm_node deny p n = None.
Proof.
  induction n as [t | es IH] using node_induction; intros p Hfree.
  - cbn [rm_node]. specialize (Hfree []). rewrite app_nil_r in Hfree.
    now rewrite Hfree.
  - cbn [rm_node].
    assert (Hnone :
      flat_map
        (fun e =>
           match rm_node deny (Path.joinpath p (fst e)) (snd e) with
           | Some c => [(fst e, c)]
           | None => []
           end) es = []).
    { induction es as [|e es IHes]; [reflexivity|].
      inversion IH as [|? ? He Hes]; subst.
      cbn [flat_map]. rewrite He.
      - now apply IHes.
      - intros rel. unfold Path.joinpath. rewrite <- app_assoc. apply Hfree. }
    rewrite Hnone. specialize (Hfree []). rewrite app_nil_r in Hfree.
    now rewrite Hfree.
Qed.

(** The bound on the recursion of [mkdir] is never reached: any fuel from
    the number of parts of the path on gives the same result. *)
Lemma mkdir_fuel_flat (k k' : nat) (exist_ok : bool) (fs : filesystem)
    (p : path) :
  mkdir_fuel k false exist_ok fs p = mkdir_fuel k' false exist_ok fs p.
Proof.
  destruct k, k'; cbn [mkdir_fuel]; destruct (os_mkdir fs p) as [e|fs1];
    try reflexivity; now destruct (exc_type e =? "FileNotFoundError").
Qed.

Lemma mkdir_fuel_enough (k : nat) :
  forall k' parents exist_ok fs p,
    List.length p <= k -> List.length p <= k' ->
    mkdir_fuel k parents exist_ok fs p = mkdir_fuel k' parents exist_ok fs p.
Proof.
  induction k as [|k IH]; intros k' parents exist_ok fs p Hk Hk';
    (destruct parents; [|apply mkdir_fuel_flat]).
  - destruct p; [|simpl in Hk; lia].
    destruct k'; cbn [mkdir_fuel]; destruct (os_mkdir fs []) as [e|fs1];
      try reflexivity; now destruct (exc_type e =? "FileNotFoundError").
  - destruct k' as [|k'].
    + destruct p; [|simpl in Hk'; lia].
      cbn [mkdir_fuel]. destruct (os_mkdir fs []) as [e|fs1];
        try reflexivity; now destruct (exc_type e =? "FileNotFoundError").
    + cbn [mkdir_fuel]. destruct (os_mkdir fs p) as [e|fs1]; [|reflexivity].
      destruct (exc_type e =? "FileNotFoundError"); [|reflexivity].
      cbn [negb orb].
      destruct (Path.path_eqb (Path.parent p) p) eqn:Hp; [reflexivity|].
      apply PathFacts.parent_shorter in Hp.
      rewrite (IH k' true true fs (Path.parent p)) by lia.
      destruct (mkdir_fuel k' true true fs (Path.parent p)) as [e'|fs1];
        [reflexivity|].
      apply mkdir_fuel_flat.
Qed.

End FSFacts.

(** ** The Collector against the file system *)

Lemma all_ascii_complete (c : ascii) : In c all_ascii.
Proof.
  unfold all_ascii. rewrite <- (ascii_nat_embedding c).
  apply in_map, in_seq. pose proof (nat_ascii_bounded c). lia.
Qed.

(** [str.lower] against the alphabet: a character lowers to a character
    that is no capital exactly when the two are the same up to case. *)
Lemma lower_ascii_same (a b : ascii) :
  position b upper_letters = None ->
  (Ascii.eqb (lower_ascii a) b = same_char_ignoring_case a b).
Proof.
  assert (Hall :
    forallb (fun a =>
      forallb (fun b =>
        match position b upper_letters with
        | Some _ => true
        | None =>
            Bool.eqb (Ascii.eqb (lower_ascii a) b)
                     (same_char_ignoring_case a b)
        end) all_ascii) all_ascii = true)
    by (vm_compute; reflexivity).
  intros Hb. rewrite forallb_forall in Hall.
  specialize (Hall a (all_ascii_complete a)).
  rewrite forallb_forall in Hall.
  specialize (Hall b (all_ascii_complete b)).
  rewrite Hb in Hall. now apply Bool.eqb_prop in Hall.
Qed.

Lemma lower_same (s : string) :
  forall e,
    no_capital e = true ->
    (lower s = e <-> same_ignoring_case s e = true).
Proof.
  induction s as [|a s IH]; intros [|b e] He; cbn [lower same_ignoring_case];
    try (split; [discriminate | discriminate]); [tauto|].
  cbn [no_capital] in He.
  destruct (position b upper_letters) eqn:Hb; [discriminate|].
  rewrite andb_true_iff, <- (lower_ascii_same a b Hb), <- (IH e He).
  rewrite Ascii.eqb_eq. split.
  - intros [= -> ->]. now split.
  - intros [-> ->]. reflexivity.
Qed.

Lemma source_exts_no_capital :
  forall ext, In ext SOURCE_EXTS -> no_capital ext = true /\ ext <> EmptyString.
Proof.
  intros ext Hin. unfold SOURCE_EXTS in Hin. simpl in Hin.
  repeat (destruct Hin as [<- | Hin]; [split; [reflexivity | discriminate]|]).
  contradiction.
Qed.

(** [str.rfind] against the text. *)
Lemma rfind_none_no_dot (s : string) :
  rfind "."%char s = None <-> no_dot s = true.
Proof.
  induction s as [|a s IH]; cbn [rfind no_dot]; [tauto|].
  destruct (rfind "."%char s) as [i|].
  - split; [discriminate|]. intros H. apply andb_true_iff in H.
    destruct H as [_ H]. apply IH in H. discriminate.
  - destruct (Ascii.eqb a "."%char); cbn [negb andb].
    + split; discriminate.
    + split; [intros _; now apply IH | reflexivity].
Qed.

Lemma rfind_some (c : ascii) (s : string) :
  forall i,
    rfind c s = Some i ->
    exists pre post,
      s = pre +:+ String c post /\ String.length pre = i /\
      rfind c post = None.
Proof.
  induction s as [|a s IH]; intros i H; cbn [rfind] in H; [discriminate|].
  destruct (rfind c s) as [j|] eqn:Hr.
  - injection H as <-. destruct (IH j eq_refl) as (pre & post & -> & <- & Hp).
    exists (String a pre), post. repeat split; auto.
  - destruct (Ascii.eqb a c) eqn:Hac; [|discriminate].
    injection H as <-. apply Ascii.eqb_eq in Hac. subst a.
    exists EmptyString, s. repeat split; auto.
Qed.

Lemma rfind_app (c : ascii) (pre post : string) :
  rfind c post = None ->
  rfind c (pre +:+ String c post) = Some (String.length pre).
Proof.
  intros Hp. induction pre as [|a pre IH]; cbn [String.append rfind].
  - now rewrite Hp, Ascii.eqb_refl.
  - now rewrite IH.
Qed.

Lemma substring_tail (pre t : string) :
  substring (String.length pre)
            (String.length (pre +:+ t) - String.length pre) (pre +:+ t) = t.
Proof.
  induction pre as [|a pre IH]; cbn [String.append String.length].
  - rewrite Nat.sub_0_r. induction t as [|b t IHt]; [reflexivity|].
    cbn [String.length substring]. now rewrite IHt.
  - cbn [substring Nat.sub]. exact IH.
Qed.

(** [p.suffix] against the name: the suffix is the text from the last dot
    of the name, when that dot has text before it and after it. *)
Lemma suffix_spec (p : path) (sfx : string) :
  sfx <> EmptyString ->
  (Path.suffix p = sfx <->
   exists stem e,
     Path.name p = stem +:+ "." +:+ e /\ stem <> EmptyString /\
     e <> EmptyString /\ no_dot e = true /\ sfx = "." +:+ e).
Proof.
  intros Hne. unfold Path.suffix. cbv zeta.
  set (nm := Path.name p). split.
  - destruct (rfind "."%char nm) as [i|] eqn:Hr; [|congruence].
    destruct (rfind_some _ _ _ Hr) as (pre & post & Hnm & Hi & Hpost).
    destruct ((0 <? i) && (i <? String.length nm - 1))%nat eqn:Hc;
      [|congruence].
    intros <-. apply andb_true_iff in Hc. destruct Hc as [H0 H1].
    apply Nat.ltb_lt in H0, H1.
    exists pre, post. rewrite Hnm in *. rewrite <- Hi in *.
    rewrite length_append in H1. cbn [String.length] in H1.
    repeat split.
    + intros ->. simpl in H0. lia.
    + intros ->. simpl in H1. lia.
    + now apply rfind_none_no_dot.
    + apply substring_tail.
  - intros (stem & e & Hnm & Hstem & He & Hdot & ->).
    apply rfind_none_no_dot in Hdot.
    change ("." +:+ e) with (String "."%char e) in *.
    rewrite Hnm, (rfind_app _ stem e Hdot).
    assert (H0 : 0 < String.length stem)
      by (destruct stem; [congruence | simpl; lia]).
    assert (H1 : String.length stem <
                 String.length (stem +:+ String "."%char e) - 1).
    { rewrite length_append. cbn [String.length].
      destruct e; [congruence | simpl; lia]. }
    apply Nat.ltb_lt in H0, H1. rewrite H0, H1. cbn [andb].
    apply substring_tail.
Qed.

Lemma assoc_In (k : string) (c : node) (es : FS.entries) :
  FS.assoc k es = Some c -> In (k, c) es.
Proof.
  induction es as [|[k' c'] tl IH]; simpl; [discriminate|].
  destruct (k' =? k) eqn:Hk.
  - intros [= ->]. apply String.eqb_eq in Hk. subst. now left.
  - intros H. right. now apply IH.
Qed.

(** The traversal yields every path that leads to something below its
    start. *)
Lemma rglob_node_complete (rel : list string) :
  forall n prefix c,
    rel <> [] ->
    FS.walk n rel = Some c ->
    In (prefix ++ rel) (rglob_node prefix n).
Proof.
  induction rel as [|k rel IH]; intros n prefix c Hne Hw; [contradiction|].
  destruct n as [t|es]; [discriminate|].
  cbn [FS.walk] in Hw.
  destruct (FS.assoc k es) as [c1|] eqn:Hk; [|discriminate].
  apply assoc_In in Hk. cbn [rglob_node]. apply in_or_app.
  destruct rel as [|k2 rel].
  - left. apply in_map_iff. exists (k, c1). now split.
  - right. apply in_flat_map. exists (k, c1). split; [exact Hk|].
    cbn [fst snd]. unfold Path.joinpath.
    replace (prefix ++ k :: k2 :: rel) with ((prefix ++ [k]) ++ k2 :: rel)
      by now rewrite <- app_assoc.
    apply IH with (c := c); [discriminate | exact Hw].
Qed.

(** A path below a root resolves below what the root resolves to. *)
Lemma lookup_below (fs : FS.filesystem) (root rel : path) :
  root <> [] ->
  FS.lookup fs (root ++ rel) =
  match FS.lookup fs root with
  | Some n => FS.walk n rel
  | None => None
  end.
Proof.
  intros Hroot. unfold FS.lookup. rewrite <- FSFacts.walk_app. f_equal.
  destruct root as [|a root]; [contradiction|].
  unfold FS.resolve. cbn [app].
  destruct (a =? "/"); [reflexivity|]. now rewrite <- app_assoc.
Qed.

Lemma name_last (root rel : path) :
  root <> [] -> rel <> [] ->
  Path.name (root ++ rel) = last (root ++ rel) EmptyString.
Proof.
  intros Hroot Hrel. unfold Path.name.
  destruct root as [|a root]; [contradiction|].
  destruct rel as [|b rel]; [contradiction|].
  now destruct root.
Qed.

(** ** Symbolic execution of the run *)

Ltac run_step :=
  cbv beta iota zeta delta
    [analyze_repo shallow_clone git_clone chat_completion mkdir rmtree
     try_finally try_except bind ret raise gets of_result set_fs print
     stderr_write set_repo_path log_clone log_request];
  cbn [st_fs stdout stderr clone_calls api_calls repo_path fst snd].

Section Run.
Variable E : env.
Variables repo_url branch : string.

Lemma shallow_clone_cases (st : state) :
  let fs := st_fs st in
  let tmp := tmp_dir_of fs (uuid4_hex E) in
  shallow_clone E repo_url branch st =
  match FS.mkdir false true fs (base_tmp fs) with
  | inl e => (Raise e, st)
  | inr fs1 =>
      match FS.mkdir true false fs1 tmp with
      | inl e =>
          (Raise e, MkState fs1 (stdout st) (stderr st) (clone_calls st)
                            (api_calls st) (repo_path st))
      | inr fs2 =>
          match clone_from E repo_url branch with
          | CloneOk content =>
              (Ok tmp,
               MkState (FS.update fs2 (fun _ => Some (Dir content)) tmp)
                       (stdout st) (stderr st)
                       (clone_calls st ++ [(repo_url, tmp, branch)])
                       (api_calls st) (repo_path st))
          | CloneFail partial cause =>
              (Raise (Exn "RuntimeError"
                          ("Git clone failed: " +:+ exc_msg cause)),
               MkState (FS.rmtree (undeletable E)
                          (FS.update fs2 (fun _ => Some (Dir partial)) tmp)
                          tmp)
                       (stdout st) (stderr st)
                       (clone_calls st ++ [(repo_url, tmp, branch)])
                       (api_calls st) (repo_path st))
          end
      end
  end.
Proof.
  cbv zeta. unfold tmp_dir_of. run_step.
  destruct (FS.mkdir false true _ _) as [e|fs1]; [reflexivity|].
  run_step.
  destruct (FS.mkdir true false fs1 _) as [e|fs2]; [reflexivity|].
  run_step.
  destruct (clone_from E repo_url branch); reflexivity.
Qed.

(** The Fetcher reads and writes the file system and the clone log only. *)
Lemma shallow_clone_frame (st st' : state) :
  st_fs st' = st_fs st ->
  exists st1',
    shallow_clone E repo_url branch st' =
      (fst (shallow_clone E repo_url branch st), st1') /\
    st_fs st1' = st_fs (snd (shallow_clone E repo_url branch st)) /\
    stdout st1' = stdout st' /\
    api_calls st1' = api_calls st' /\
    repo_path st1' = repo_path st'.
Proof.
  intros Hfs. rewrite !shallow_clone_cases. cbv zeta. rewrite Hfs.
  destruct (FS.mkdir false true _ _) as [e|fs1].
  { eexists; repeat split; auto. }
  destruct (FS.mkdir true false fs1 _) as [e|fs2].
  { eexists; repeat split. }
  destruct (clone_from E repo_url branch); eexists; repeat split.
Qed.

Lemma build_prompt_total (fs : FS.filesystem) (files : list path)
    (prefix : option string) :
  exists body,
    build_prompt fs files repo_url branch prefix =
    Ok (with_prefix prefix (intro_text repo_url branch) +:+ nl +:+ body).
Proof.
  unfold build_prompt.
  destruct (build_body_sections fs files EmptyString) as (k & -> & _).
  { simpl. lia. }
  now eexists.
Qed.

(** What one run leaves behind, by the outcome of the Fetcher. *)
Lemma analyze_repo_run (prefix : option string) (st : state) :
  let r := shallow_clone E repo_url branch st in
  let run := analyze_repo E repo_url branch prefix st in
  fst run = Ok tt /\
  match fst r with
  | Raise e =>
      stdout (snd run) = stdout st ++ [json_error (error_msg e)] /\
      api_calls (snd run) = api_calls st /\
      st_fs (snd run) = st_fs (snd r)
  | Ok p =>
      let fs1 := st_fs (snd r) in
      exists prompt,
        build_prompt fs1 (collect_source_files fs1 p) repo_url branch prefix
          = Ok prompt /\
        api_calls (snd run) = api_calls st ++ [completion_request E prompt] /\
        st_fs (snd run) = cleanup E fs1 p /\
        stdout (snd run) =
          stdout st ++
          [match post_chat E (completion_request E prompt) with
           | inr content => content
           | inl e => json_error (error_msg e)
           end]
  end.
Proof.
  cbv zeta.
  destruct (analyze_repo E repo_url branch prefix st) as [res final] eqn:Hrun.
  cbn [fst snd]. revert Hrun.
  unfold analyze_repo, try_finally, try_except.
  unfold bind at 1, set_repo_path at 1.
  unfold bind at 1, stderr_write at 1. unfold bind at 1, stderr_write at 1.
  unfold bind at 1.
  match goal with
  | |- context [shallow_clone E repo_url branch ?s] =>
      match s with
      | st => fail 1
      | _ => destruct (shallow_clone_frame st s eq_refl)
               as (st1' & -> & Hfs & Hout & Hapi & Hrp)
      end
  end.
  cbn [st_fs stdout stderr clone_calls api_calls repo_path] in Hout, Hapi, Hrp.
  rewrite <- Hfs.
  destruct (fst (shallow_clone E repo_url branch st)) as [p|e].
  - run_step.
    destruct (build_prompt_total (st_fs st1') (collect_source_files (st_fs st1') p) prefix)
      as (body & Hprompt).
    rewrite Hprompt. run_step.
    fold (completion_request E
            (with_prefix prefix (intro_text repo_url branch) +:+ nl +:+ body)).
    unfold cleanup.
    destruct (post_chat E _) as [e|content] eqn:Hpost; run_step;
      destruct (FS.exists_ (st_fs st1') p); run_step;
      intros [= <- <-]; (split; [reflexivity|]);
      eexists; (split; [reflexivity|]);
      cbn [st_fs stdout stderr clone_calls api_calls repo_path];
      rewrite Hout, Hapi, Hpost; repeat split.
  - run_step. rewrite Hrp. intros [= <- <-].
    cbn [st_fs stdout stderr clone_calls api_calls repo_path].
    rewrite Hout, Hapi. repeat split.
Qed.

End Run.

(** ** Repository Fetcher *)

Section Fetcher.
Import FS.
Variable fs : filesystem.
Variable hex : string.

Let tc : list string := fs_cwd fs ++ ["temp_clones"].
Let leaf : string := "cerebra-" +:+ hex.

(** The scratch directory is an absolute path: every file system resolves
    it to the same segments. *)
Lemma lookup_tmp (fs' : filesystem) :
  lookup fs' (tmp_dir_of fs hex) = walk (fs_root fs') (tc ++ [leaf]).
Proof. reflexivity. Qed.

Lemma lookup_base (fs' : filesystem) :
  lookup fs' (base_tmp fs) = walk (fs_root fs') tc.
Proof. reflexivity. Qed.

Lemma walk_snoc_some (n c : node) (p : list string) (s : string) :
  walk n (p ++ [s]) = Some c -> exists es, walk n p = Some (Dir es).
Proof.
  rewrite FSFacts.walk_app. destruct (walk n p) as [[t|es]|]; try discriminate.
  intros _. now exists es.
Qed.

(** What [shutil.rmtree] leaves at the scratch path. *)
Lemma lookup_rmtree_tmp (deny : path -> bool) (fs' : filesystem) :
  lookup (rmtree deny fs' (tmp_dir_of fs hex)) (tmp_dir_of fs hex) =
  match lookup fs' (tmp_dir_of fs hex) with
  | Some (Dir es) => rm_node deny (tmp_dir_of fs hex) (Dir es)
  | other => other
  end.
Proof.
  rewrite !lookup_tmp. unfold rmtree. cbn [update fs_root].
  change (resolve fs' (tmp_dir_of fs hex)) with (tc ++ [leaf]).
  rewrite FSFacts.walk_alter_at_strict by reflexivity.
  now destruct (walk (fs_root fs') (tc ++ [leaf])) as [[t|es]|].
Qed.

(** The scratch directory is gone after [shutil.rmtree] when no removal
    below it is refused. *)
Lemma lookup_rmtree_clean (deny : path -> bool) (fs' : filesystem)
    (es : entries) :
  (forall rel, deny (tmp_dir_of fs hex ++ rel) = false) ->
  lookup fs' (tmp_dir_of fs hex) = Some (Dir es) ->
  lookup (rmtree deny fs' (tmp_dir_of fs hex)) (tmp_dir_of fs hex) = None.
Proof.
  intros Hfree Hdir. rewrite lookup_rmtree_tmp, Hdir.
  now apply FSFacts.rm_node_clean.
Qed.

(** After [base_tmp.mkdir(exist_ok=True)] the working area is a directory,
    and the scratch path is as it was. *)
Lemma mkdir_base_post (fs1 : filesystem) :
  mkdir false true fs (base_tmp fs) = inr fs1 ->
  (exists es, walk (fs_root fs1) tc = Some (Dir es)) /\
  lookup fs1 (tmp_dir_of fs hex) = lookup fs (tmp_dir_of fs hex).
Proof.
  intros H. apply FSFacts.mkdir_exist_ok in H.
  destruct H as [[-> Hdir] | Hos].
  - split; [|reflexivity].
    unfold is_dir in Hdir. rewrite lookup_base in Hdir.
    destruct (walk (fs_root fs) tc) as [[t|es]|]; try discriminate.
    now exists es.
  - apply FSFacts.os_mkdir_inr in Hos. destruct Hos as (Hnone & (es & Hpar) & ->).
    unfold base_tmp in Hpar. rewrite FSFacts.parent_base in Hpar.
    change (walk (fs_root fs) (fs_cwd fs) = Some (Dir es)) in Hpar.
    rewrite lookup_base in Hnone.
    assert (Hnew : walk (fs_root (update fs (fun _ => Some (Dir [])) (base_tmp fs))) tc
                   = Some (Dir [])).
    { change (walk (alter_at (fun _ => Some (Dir [])) (fs_root fs) tc) tc
              = Some (Dir [])).
      unfold tc. now rewrite (FSFacts.walk_alter_at _ _ _ _ _ Hpar). }
    split; [now exists []|].
    rewrite !lookup_tmp, !FSFacts.walk_app, Hnew, Hnone. reflexivity.
Qed.

(** [tmp_dir.mkdir(parents=True, exist_ok=False)] in a working area that is
    a directory: the scratch directory did not exist, and is empty now. *)
Lemma mkdir_tmp_post (fs1 fs2 : filesystem) :
  (exists es, walk (fs_root fs1) tc = Some (Dir es)) ->
  mkdir true false fs1 (tmp_dir_of fs hex) = inr fs2 ->
  lookup fs1 (tmp_dir_of fs hex) = None /\
  (exists es, walk (fs_root fs2) tc = Some (Dir es)) /\
  lookup fs2 (tmp_dir_of fs hex) = Some (Dir []).
Proof.
  intros (es & Hbase) H.
  rewrite FSFacts.mkdir_fresh in H.
  2:{ unfold tmp_dir_of, base_tmp. rewrite FSFacts.parent_tmp.
      unfold is_dir. fold (base_tmp fs). now rewrite lookup_base, Hbase. }
  apply FSFacts.os_mkdir_inr in H. destruct H as (Hnone & _ & ->).
  assert (Hnew : lookup (update fs1 (fun _ => Some (Dir [])) (tmp_dir_of fs hex))
                        (tmp_dir_of fs hex) = Some (Dir [])).
  { rewrite lookup_tmp.
    change (walk (alter_at (fun _ => Some (Dir [])) (fs_root fs1) (tc ++ [leaf]))
                 (tc ++ [leaf]) = Some (Dir [])).
    now rewrite (FSFacts.walk_alter_at _ _ _ _ _ Hbase). }
  repeat split; auto.
  rewrite lookup_tmp in Hnew. now apply walk_snoc_some in Hnew.
Qed.

(** What the clone writes is what the next lookup finds. *)
Lemma lookup_cloned (fs2 : filesystem) (content : entries) :
  (exists es, walk (fs_root fs2) tc = Some (Dir es)) ->
  lookup (update fs2 (fun _ => Some (Dir content)) (tmp_dir_of fs hex))
         (tmp_dir_of fs hex) = Some (Dir content).
Proof.
  intros (es & Hbase). rewrite lookup_tmp.
  change (walk (alter_at (fun _ => Some (Dir content)) (fs_root fs2) (tc ++ [leaf]))
               (tc ++ [leaf]) = Some (Dir content)).
  now rewrite (FSFacts.walk_alter_at _ _ _ _ _ Hbase).
Qed.

End Fetcher.

Lemma exists_lookup (fs : FS.filesystem) (p : path) :
  FS.exists_ fs p = false <-> FS.lookup fs p = None.
Proof. unfold FS.exists_. destruct (FS.lookup fs p); split; congruence. Qed.

Lemma append_inj_l (a b c : string) : a +:+ b = a +:+ c -> b = c.
Proof. induction a as [|x a IH]; simpl; [auto | intros [= H]; auto]. Qed.

Lemma tmp_dir_of_inj (fs : FS.filesystem) (hex hex' : string) :
  tmp_dir_of fs hex = tmp_dir_of fs hex' -> hex = hex'.
Proof.
  unfold tmp_dir_of, Path.joinpath. intros H.
  apply app_inj_tail in H. destruct H as [_ H].
  now apply append_inj_l in H.
Qed.

Section FetcherRun.
Variable E : env.
Variables repo_url branch : string.
Variable st : state.

Let tmp : path := tmp_dir_of (st_fs st) (uuid4_hex E).

Lemma shallow_clone_raise (e : exn) (st1 : state) :
  shallow_clone E repo_url branch st = (Raise e, st1) ->
  (forall rel, undeletable E (tmp ++ rel) = false) ->
  FS.exists_ (st_fs st) tmp = false ->
  FS.exists_ (st_fs st1) tmp = false.
Proof.
  rewrite shallow_clone_cases. cbv zeta. fold tmp.
  rewrite !exists_lookup. intros Hrun Hfree Hfresh.
  destruct (FS.mkdir false true _ _) as [e0|fs1] eqn:H1.
  { now injection Hrun as <- <-. }
  destruct (mkdir_base_post _ (uuid4_hex E) _ H1) as (Hbase & Hsame).
  destruct (FS.mkdir true false fs1 _) as [e0|fs2] eqn:H2.
  { injection Hrun as <- <-. cbn [st_fs]. unfold tmp in *. congruence. }
  destruct (mkdir_tmp_post _ _ _ _ Hbase H2) as (_ & Hbase2 & _).
  destruct (clone_from E repo_url branch) as [|partial cause]; [discriminate|].
  injection Hrun as <- <-. cbn [st_fs].
  apply lookup_rmtree_clean with (es := partial); [exact Hfree|].
  now apply lookup_cloned.
Qed.

Lemma shallow_clone_ok (p : path) (st1 : state) :
  shallow_clone E repo_url branch st = (Ok p, st1) ->
  p = tmp /\
  FS.lookup (st_fs st) tmp = None /\
  (exists content,
      clone_from E repo_url branch = CloneOk content /\
      FS.lookup (st_fs st1) tmp = Some (Dir content)) /\
  clone_calls st1 = clone_calls st ++ [(repo_url, tmp, branch)].
Proof.
  rewrite shallow_clone_cases. cbv zeta. fold tmp. intros Hrun.
  destruct (FS.mkdir false true _ _) as [e0|fs1] eqn:H1; [discriminate|].
  destruct (mkdir_base_post _ (uuid4_hex E) _ H1) as (Hbase & Hsame).
  destruct (FS.mkdir true false fs1 _) as [e0|fs2] eqn:H2; [discriminate|].
  destruct (mkdir_tmp_post _ _ _ _ Hbase H2) as (Hnone & Hbase2 & _).
  destruct (clone_from E repo_url branch) as [content|]; [|discriminate].
  injection Hrun as <- <-. cbn [st_fs clone_calls].
  repeat split.
  - unfold tmp in *. congruence.
  - exists content. split; [reflexivity|]. now apply lookup_cloned.
Qed.

End FetcherRun.

(** ** The error envelope *)

Lemma count_nl_append (a b : string) :
  count_nl (a +:+ b) = count_nl a + count_nl b.
Proof.
  induction a as [|c a IH]; simpl; [reflexivity|]. rewrite IH. lia.
Qed.

Lemma json_escape_char_one_line (c : ascii) :
  count_nl (json_escape_char c) = 0.
Proof.
  destruct c as [b0 b1 b2 b3 b4 b5 b6 b7].
  destruct b0, b1, b2, b3, b4, b5, b6, b7; reflexivity.
Qed.

Lemma json_escape_one_line (s : string) : count_nl (json_escape s) = 0.
Proof.
  induction s as [|c s IH]; simpl; [reflexivity|].
  now rewrite count_nl_append, json_escape_char_one_line, IH.
Qed.

(** [json.dumps] never emits a line break: the envelope, once printed, is
    one line. *)
Lemma json_error_one_line (msg : string) :
  count_nl (json_error msg +:+ nl) = 1.
Proof.
  unfold json_error.
  rewrite !count_nl_append, json_escape_one_line. reflexivity.
Qed.

(** * The claims *)

(** C1, as stated, fails: when the completion endpoint answers with a JSON
    object laid out on three lines, [print(content)] relays the three lines
    and the primary output channel holds three lines, not one. *)
Lemma analyze_repo_relays_multiline_content :
  ~ one_line_written
      (snd (analyze_repo Examples.E_ok "u" "b" None Examples.st0)).
Proof. unfold one_line_written. vm_compute. discriminate. Qed.

(** C1, amended: every run returns without raising and prints exactly one
    payload on the primary output channel.  The payload is either the
    content that the completion endpoint returned for the one request of
    the run, relayed verbatim (so it spans as many lines as the content
    does), or the error envelope, which is always a single line; never
    none, never both. *)
Theorem analyze_repo_prints_one_payload
    (E : env) (repo_url branch : string) (prefix : option string) (st : state) :
  let run := analyze_repo E repo_url branch prefix st in
  fst run = Ok tt /\
  exists payload,
    stdout (snd run) = stdout st ++ [payload] /\
    ((exists r, api_calls (snd run) = api_calls st ++ [r] /\
                post_chat E r = inr payload)
     \/
     (exists e, payload = json_error (error_msg e) /\
                count_nl (payload +:+ nl) = 1)).
Proof.
  cbv zeta.
  destruct (analyze_repo_run E repo_url branch prefix st) as (Hret & Hrun).
  split; [exact Hret|].
  destruct (fst (shallow_clone E repo_url branch st)) as [p|e].
  - destruct Hrun as (prompt & _ & Hapi & _ & Hout).
    destruct (post_chat E (completion_request E prompt)) as [e|content] eqn:Hpost.
    + eexists; split; [exact Hout|]. right. exists e.
      split; [reflexivity | apply json_error_one_line].
    + eexists; split; [exact Hout|]. left.
      exists (completion_request E prompt). now split.
  - destruct Hrun as (Hout & _ & _).
    eexists; split; [exact Hout|]. right. exists e.
    split; [reflexivity | apply json_error_one_line].
Qed.

(** C2, as stated, fails: both removals are
    [shutil.rmtree(..., ignore_errors=True)], which ignores the error of a
    removal that the operating system refuses.  Here the clone holds a pack
    index that cannot be unlinked: the run ends normally and the scratch
    directory, which did not exist before, is still there. *)
Lemma scratch_directory_survives_refused_removal :
  FS.exists_ (st_fs Examples.st0)
             (tmp_dir_of (st_fs Examples.st0) (uuid4_hex Examples.E_locked))
    = false /\
  fst (analyze_repo Examples.E_locked "u" "b" None Examples.st0) = Ok tt /\
  FS.lookup
    (st_fs (snd (analyze_repo Examples.E_locked "u" "b" None Examples.st0)))
    (tmp_dir_of (st_fs Examples.st0) (uuid4_hex Examples.E_locked))
    = Some (Dir [(".git", Dir [("pack.idx", File None)])]) /\
  FS.exists_
    (st_fs (snd (analyze_repo Examples.E_locked "u" "b" None Examples.st0)))
    (tmp_dir_of (st_fs Examples.st0) (uuid4_hex Examples.E_locked))
    = true.
Proof. repeat split. Qed.

(** C2, amended: when the scratch directory of the run does not exist
    beforehand and the operating system refuses no removal below it, it
    does not exist after the run, whatever happened: a failing
    [shallow_clone] leaves no directory behind when it raises, and the
    [finally] block of [analyze_repo] removes the directory of a clone
    that succeeded. *)
Theorem scratch_directory_removed
    (E : env) (repo_url branch : string) (prefix : option string) (st : state) :
  let tmp := tmp_dir_of (st_fs st) (uuid4_hex E) in
  FS.exists_ (st_fs st) tmp = false ->
  (forall rel, undeletable E (tmp ++ rel) = false) ->
  (forall e st1,
      shallow_clone E repo_url branch st = (Raise e, st1) ->
      FS.exists_ (st_fs st1) tmp = false) /\
  FS.exists_ (st_fs (snd (analyze_repo E repo_url branch prefix st))) tmp = false.
Proof.
  cbv zeta. intros Hfresh Hfree. split.
  - intros e st1 Hrun. now apply (shallow_clone_raise E repo_url branch st e).
  - destruct (analyze_repo_run E repo_url branch prefix st) as (_ & Hrun).
    destruct (shallow_clone E repo_url branch st) as [[p|e] st1] eqn:Hclone;
      cbn [fst snd] in Hrun.
    + destruct Hrun as (prompt & _ & _ & -> & _).
      apply shallow_clone_ok in Hclone.
      destruct Hclone as (-> & _ & (content & _ & Hdir) & _).
      unfold cleanup.
      destruct (FS.exists_ (st_fs st1) _) eqn:Hex; [|exact Hex].
      apply exists_lookup.
      now apply lookup_rmtree_clean with (es := content).
    + destruct Hrun as (_ & _ & ->).
      now apply (shallow_clone_raise E repo_url branch st e).
Qed.

Lemma scratch_directory_removed_witness :
  FS.exists_ (st_fs Examples.st0)
             (tmp_dir_of (st_fs Examples.st0) (uuid4_hex Examples.E_ok)) = false /\
  (forall rel,
      undeletable Examples.E_ok
        (tmp_dir_of (st_fs Examples.st0) (uuid4_hex Examples.E_ok) ++ rel)
      = false) /\
  FS.exists_
    (st_fs (snd (analyze_repo Examples.E_ok "u" "b" None Examples.st0)))
    (tmp_dir_of (st_fs Examples.st0) (uuid4_hex Examples.E_ok)) = false.
Proof.
  split; [reflexivity|]. split; [reflexivity|].
  apply (scratch_directory_removed Examples.E_ok "u" "b" None Examples.st0);
    reflexivity.
Defined.

(** C3: the body of the prompt is the concatenation of the first [k]
    formatted sections of the readable files, whole; it never exceeds the
    budget of 15000 characters; and when sections are left out, the next one
    would have pushed the body over the budget. *)
Theorem build_prompt_body_within_budget
    (fs : FS.filesystem) (files : list path) (repo_url branch : string)
    (prefix : option string) :
  max_chars = 15000 /\
  exists body k,
    build_prompt fs files repo_url branch prefix =
      Ok (with_prefix prefix (intro_text repo_url branch) +:+ nl +:+ body) /\
    String.length body <= max_chars /\
    body = concat_str (firstn k (sections fs files)) /\
    (k < List.length (sections fs files) ->
     max_chars <
     String.length (concat_str (firstn (S k) (sections fs files)))).
Proof.
  split; [reflexivity|].
  destruct (build_body_sections fs files EmptyString) as (k & Hrun & Hle & Hnext).
  { simpl. lia. }
  cbn [String.append] in Hrun, Hle, Hnext.
  exists (concat_str (firstn k (sections fs files))), k.
  unfold build_prompt. rewrite Hrun. repeat split; auto.
Qed.

(** Eight files of 3000 characters: each section holds 2000 of them and
    is 2020 characters long, so seven sections fit and the eighth file is
    left out. *)
Example build_prompt_budget_example :
  List.length (collect_source_files Examples.fs_long ["/"; "r"]) = 8 /\
  match
    build_prompt Examples.fs_long
      (collect_source_files Examples.fs_long ["/"; "r"]) "u" "b" None
  with
  | Ok prompt =>
      String.length prompt = String.length (intro_text "u" "b") + 1 + 7 * 2020
  | Raise _ => False
  end.
Proof. split; vm_compute; reflexivity. Qed.

(** C4: the label of a section is not the path relative to the clone root.
    [build_prompt] anchors [relative_to] at the grandparent of the file, so
    the label is the last two parts of the path: a file two directories
    deep loses its first directory, and a file at the top of the clone is
    labeled with the name of the scratch directory.  The content is cut to
    its first 2000 characters, as claimed. *)
Theorem build_prompt_label_is_last_two_parts :
  let root := tmp_dir_of Examples.fs "0a" in
  let intro := intro_text "u" "b" in
  root = Examples.root /\
  build_prompt Examples.fs [root ++ ["src"; "lib"; "c.go"]] "u" "b" None =
    Ok (intro +:+ nl +:+
        nl +:+ "--- lib/c.go ---" +:+ nl +:+ "package c" +:+ nl) /\
  build_prompt Examples.fs [root ++ ["main.py"]] "u" "b" None =
    Ok (intro +:+ nl +:+
        nl +:+ "--- cerebra-0a/main.py ---" +:+ nl +:+ "print(1)" +:+ nl) /\
  (forall (p : path) (d n : string),
      p <> [] -> label_of (p ++ [d; n]) = [d; n]) /\
  (forall rel content,
      exists tail,
        content = substring 0 2000 content +:+ tail /\
        String.length (substring 0 2000 content) <= 2000 /\
        part_of rel content =
          nl +:+ "--- " +:+ Path.str rel +:+ " ---" +:+ nl +:+
          substring 0 2000 content +:+ nl).
Proof.
  cbv zeta. split; [reflexivity|]. split; [reflexivity|].
  split; [reflexivity|]. split.
  - exact label_last_two.
  - exact part_of_head.
Qed.

(** C5: [collect_source_files] returns exactly the paths strictly below
    the root that are files of the file system, whose name ends, after a
    last dot that has text before it and after it, in an extension that is,
    up to the case of its letters, one of the allow-list, and none of whose
    parts is an excluded name.  Parts are compared whole. *)
Theorem collect_source_files_exact
    (fs : FS.filesystem) (root p : path) :
  root <> [] ->
  (In p (collect_source_files fs root) <->
   (exists rel, rel <> [] /\ p = root ++ rel) /\
   (exists text, FS.lookup fs p = Some (File text)) /\
   (exists stem e ext,
       last p EmptyString = stem +:+ "." +:+ e /\
       stem <> EmptyString /\ e <> EmptyString /\ no_dot e = true /\
       In ext [".js"; ".ts"; ".jsx"; ".tsx"; ".py"; ".java"; ".go"; ".c";
               ".cpp"] /\
       same_ignoring_case ("." +:+ e) ext = true) /\
   (forall seg, In seg p ->
      ~ In seg ["node_modules"; ".git"; "dist"; "build"; "venv";
                "__pycache__"])).
Proof.
  intros Hroot.
  rewrite collect_filter, filter_In, keeps_iff.
  fold SOURCE_EXTS skip_dirs.
  assert (Hext : forall rel, rel <> [] ->
    (In (lower (Path.suffix (root ++ rel))) SOURCE_EXTS <->
     exists stem e ext,
       last (root ++ rel) EmptyString = stem +:+ "." +:+ e /\
       stem <> EmptyString /\ e <> EmptyString /\ no_dot e = true /\
       In ext SOURCE_EXTS /\ same_ignoring_case ("." +:+ e) ext = true)).
  { intros rel Hrel. rewrite <- (name_last root rel Hroot Hrel). split.
    - intros Hin.
      destruct (source_exts_no_capital _ Hin) as (Hcap & Hne).
      assert (Hsfx : Path.suffix (root ++ rel) <> EmptyString)
        by (intros H; rewrite H in Hne; now apply Hne).
      destruct (proj1 (suffix_spec (root ++ rel) _ Hsfx) eq_refl)
        as (stem & e & Hnm & Hstem & He & Hdot & Heq).
      exists stem, e, (lower (Path.suffix (root ++ rel))).
      repeat split; auto.
      rewrite <- Heq. now apply (lower_same _ _ Hcap).
    - intros (stem & e & ext & Hnm & Hstem & He & Hdot & Hin & Hsame).
      destruct (source_exts_no_capital _ Hin) as (Hcap & _).
      assert (Hsfx : Path.suffix (root ++ rel) = "." +:+ e).
      { apply suffix_spec; [discriminate|]. now exists stem, e. }
      rewrite Hsfx. apply (lower_same _ _ Hcap) in Hsame. now rewrite Hsame. }
  split.
  - intros (Hin & Hfile & Hsuffix & Hseg).
    destruct (rglob_below fs root p Hin) as (rel & Hrel & ->).
    split; [now exists rel|]. split; [|split; [now apply Hext | exact Hseg]].
    unfold FS.is_file in Hfile.
    destruct (FS.lookup fs (root ++ rel)) as [[text|es]|]; try discriminate.
    now exists text.
  - intros ((rel & Hrel & ->) & (text & Hfile) & Hsuffix & Hseg).
    split; [|split; [|split; [now apply Hext | exact Hseg]]].
    + rewrite (lookup_below fs root rel Hroot) in Hfile. unfold rglob.
      destruct (FS.lookup fs root) as [n|]; [|discriminate].
      now apply rglob_node_complete with (c := File text).
    + unfold FS.is_file. now rewrite Hfile.
Qed.

Lemma collect_source_files_exact_witness :
  Examples.root <> [] /\
  In (Examples.root ++ ["src"; "a.JS"])
     (collect_source_files Examples.fs Examples.root).
Proof.
  split; [discriminate|].
  apply (proj2 (collect_source_files_exact Examples.fs Examples.root
                  (Examples.root ++ ["src"; "a.JS"])
                  ltac:(discriminate))).
  split; [exists ["src"; "a.JS"]; split; [discriminate | reflexivity]|].
  split; [exists (Some "let a"); reflexivity|].
  split.
  - exists "a", "JS", ".js". repeat split; try discriminate.
    simpl. tauto.
  - intros seg Hp Hs. simpl in Hp, Hs.
    repeat (destruct Hp as [<- | Hp];
            [repeat (destruct Hs as [Hs | Hs]; [discriminate|]); exact Hs|]).
    exact Hp.
Defined.

(** The Collector on a clone with an upper-case suffix, a file that is not
    source code, a directory whose name only starts like an excluded one,
    and two excluded directories. *)
Example collect_source_files_example :
  collect_source_files Examples.fs Examples.root =
  map (fun rel => Examples.root ++ rel)
      [["main.py"]; ["src"; "a.JS"]; ["src"; "lib"; "b.ts"];
       ["src"; "lib"; "c.go"]; ["src"; "builder"; "d.c"]].
Proof. reflexivity. Qed.

(** C6, as stated, fails: the removal is
    [shutil.rmtree(tmp_dir, ignore_errors=True)], which ignores the error
    of a removal that the operating system refuses.  Here the clone that
    fails has left a pack index that cannot be unlinked: [shallow_clone]
    raises its [RuntimeError] after one attempt, and the destination
    directory is still there. *)
Lemma shallow_clone_leaves_refused_partial_clone :
  fst (shallow_clone Examples.E_locked_no_branch "u" "nope" Examples.st0) =
    Raise (Exn "RuntimeError"
               "Git clone failed: Remote branch nope not found") /\
  clone_calls
    (snd (shallow_clone Examples.E_locked_no_branch "u" "nope" Examples.st0))
    = [("u", tmp_dir_of Examples.fs0 "0a", "nope")] /\
  FS.exists_
    (st_fs (snd (shallow_clone Examples.E_locked_no_branch "u" "nope"
                   Examples.st0)))
    (tmp_dir_of Examples.fs0 "0a") = true.
Proof. repeat split. Qed.

(** C6, amended: when the destination directory was created and the clone
    operation fails, [shallow_clone] raises one [RuntimeError] whose
    message carries the text of the cause, after one attempt and after
    [shutil.rmtree] on the destination: what is left there is what could
    not be removed, and the directory is gone when no removal below it is
    refused; when [shallow_clone] returns, it returns the scratch path,
    which did not exist before, is a directory holding the clone now, and
    is named after the random identifier alone. *)
Theorem shallow_clone_contract
    (E : env) (repo_url branch : string) (st : state) :
  let fs := st_fs st in
  let tmp := tmp_dir_of fs (uuid4_hex E) in
  (forall fs1 fs2 partial cause,
      FS.mkdir false true fs (base_tmp fs) = inr fs1 ->
      FS.mkdir true false fs1 tmp = inr fs2 ->
      clone_from E repo_url branch = CloneFail partial cause ->
      exists st1,
        shallow_clone E repo_url branch st =
          (Raise (Exn "RuntimeError" ("Git clone failed: " +:+ exc_msg cause)),
           st1) /\
        FS.lookup (st_fs st1) tmp =
          FS.rm_node (undeletable E) tmp (Dir partial) /\
        ((forall rel, undeletable E (tmp ++ rel) = false) ->
         FS.exists_ (st_fs st1) tmp = false) /\
        clone_calls st1 = clone_calls st ++ [(repo_url, tmp, branch)]) /\
  (forall p st1,
      shallow_clone E repo_url branch st = (Ok p, st1) ->
      p = tmp /\
      FS.exists_ fs p = false /\
      (exists content,
          clone_from E repo_url branch = CloneOk content /\
          FS.lookup (st_fs st1) p = Some (Dir content)) /\
      clone_calls st1 = clone_calls st ++ [(repo_url, tmp, branch)]) /\
  (forall hex hex', tmp_dir_of fs hex = tmp_dir_of fs hex' -> hex = hex').
Proof.
  cbv zeta. split; [|split].
  - intros fs1 fs2 partial cause H1 H2 Hc.
    rewrite shallow_clone_cases. cbv zeta. rewrite H1, H2, Hc.
    eexists. split; [reflexivity|]. cbn [st_fs clone_calls].
    destruct (mkdir_base_post _ (uuid4_hex E) _ H1) as (Hbase & _).
    destruct (mkdir_tmp_post _ _ _ _ Hbase H2) as (_ & Hbase2 & _).
    pose proof (lookup_cloned _ (uuid4_hex E) _ partial Hbase2) as Hdir.
    split; [|split; [|reflexivity]].
    + now rewrite lookup_rmtree_tmp, Hdir.
    + intros Hfree. apply exists_lookup.
      now apply lookup_rmtree_clean with (es := partial).
  - intros p st1 Hrun. apply shallow_clone_ok in Hrun.
    destruct Hrun as (-> & Hnone & Hc & Hcalls).
    repeat split; auto. now apply exists_lookup.
  - apply tmp_dir_of_inj.
Qed.

Lemma shallow_clone_contract_witness :
  (exists st1,
      shallow_clone Examples.E_no_branch "u" "nope" Examples.st0 =
        (Raise (Exn "RuntimeError"
                    "Git clone failed: Remote branch nope not found"), st1) /\
      FS.lookup (st_fs st1) (tmp_dir_of Examples.fs0 "0a") =
        FS.rm_node (undeletable Examples.E_no_branch)
                   (tmp_dir_of Examples.fs0 "0a") (Dir [(".git", Dir [])]) /\
      ((forall rel,
           undeletable Examples.E_no_branch
             (tmp_dir_of Examples.fs0 "0a" ++ rel) = false) ->
       FS.exists_ (st_fs st1) (tmp_dir_of Examples.fs0 "0a") = false) /\
      clone_calls st1 = [("u", tmp_dir_of Examples.fs0 "0a", "nope")]) /\
  (tmp_dir_of Examples.fs0 "0a" = tmp_dir_of Examples.fs0 "0a" /\
   FS.exists_ Examples.fs0 (tmp_dir_of Examples.fs0 "0a") = false /\
   (exists content,
       clone_from Examples.E_ok "u" "b" = CloneOk content /\
       FS.lookup
         (st_fs (snd (shallow_clone Examples.E_ok "u" "b" Examples.st0)))
         (tmp_dir_of Examples.fs0 "0a") = Some (Dir content)) /\
   clone_calls (snd (shallow_clone Examples.E_ok "u" "b" Examples.st0)) =
     [("u", tmp_dir_of Examples.fs0 "0a", "b")]).
Proof.
  split.
  - apply (proj1 (shallow_clone_contract Examples.E_no_branch "u" "nope"
                    Examples.st0)
             (FS.MkFS (Dir [("w", Dir [("temp_clones", Dir [])])]) ["w"])
             (FS.MkFS (Dir [("w", Dir [("temp_clones",
                                         Dir [("cerebra-0a", Dir [])])])])
                      ["w"])
             [(".git", Dir [])]
             (Exn "GitCommandError" "Remote branch nope not found"));
      reflexivity.
  - apply (proj1 (proj2 (shallow_clone_contract Examples.E_ok "u" "b"
                           Examples.st0))).
    reflexivity.
Defined.

(** C7: when [shallow_clone] raises, the run sends no request to the
    completion endpoint and prints the error envelope of that exception;
    when it is the clone operation that fails, for instance on a branch
    that does not exist, the envelope carries the clone-classified error
    with the text of the cause. *)
Theorem clone_failure_skips_completion
    (E : env) (repo_url branch : string) (prefix : option string) (st : state) :
  let run := analyze_repo E repo_url branch prefix st in
  (forall e st1,
      shallow_clone E repo_url branch st = (Raise e, st1) ->
      api_calls (snd run) = api_calls st /\
      stdout (snd run) = stdout st ++ [json_error (error_msg e)]) /\
  (forall fs1 fs2 partial cause,
      FS.mkdir false true (st_fs st) (base_tmp (st_fs st)) = inr fs1 ->
      FS.mkdir true false fs1 (tmp_dir_of (st_fs st) (uuid4_hex E)) = inr fs2 ->
      clone_from E repo_url branch = CloneFail partial cause ->
      api_calls (snd run) = api_calls st /\
      stdout (snd run) =
        stdout st ++
        [json_error ("ERROR in Python analyzer: RuntimeError: Git clone failed: "
                     +:+ exc_msg cause)]).
Proof.
  cbv zeta.
  assert (Hraise : forall e st1,
             shallow_clone E repo_url branch st = (Raise e, st1) ->
             api_calls (snd (analyze_repo E repo_url branch prefix st))
               = api_calls st /\
             stdout (snd (analyze_repo E repo_url branch prefix st))
               = stdout st ++ [json_error (error_msg e)]).
  { intros e st1 Hclone.
    destruct (analyze_repo_run E repo_url branch prefix st) as (_ & Hrun).
    rewrite Hclone in Hrun. cbn [fst snd] in Hrun.
    destruct Hrun as (Hout & Hapi & _). now split. }
  split; [exact Hraise|].
  intros fs1 fs2 partial cause H1 H2 Hc.
  pose proof (shallow_clone_cases E repo_url branch st) as Hclone.
  cbv zeta in Hclone. rewrite H1, H2, Hc in Hclone.
  exact (Hraise _ _ Hclone).
Qed.

Lemma clone_failure_skips_completion_witness :
  api_calls (snd (analyze_repo Examples.E_no_branch "u" "nope" None
                    Examples.st0)) = [] /\
  stdout (snd (analyze_repo Examples.E_no_branch "u" "nope" None
                 Examples.st0)) =
    [json_error ("ERROR in Python analyzer: RuntimeError: Git clone failed: "
                 +:+ "Remote branch nope not found")].
Proof.
  apply (proj2 (clone_failure_skips_completion Examples.E_no_branch "u" "nope"
                  None Examples.st0)
           (FS.MkFS (Dir [("w", Dir [("temp_clones", Dir [])])]) ["w"])
           (FS.MkFS (Dir [("w", Dir [("temp_clones",
                                       Dir [("cerebra-0a", Dir [])])])])
                    ["w"])
           [(".git", Dir [])]
           (Exn "GitCommandError" "Remote branch nope not found"));
    reflexivity.
Defined.

(** C8: a file that cannot be read as text is skipped: the prompt is built
    without raising, and it is the prompt of the same list without that
    file. *)
Theorem build_prompt_skips_unreadable
    (fs : FS.filesystem) (l1 l2 : list path) (f : path) (e : exn)
    (repo_url branch : string) (prefix : option string) :
  FS.read_text fs f = Raise e ->
  exists prompt,
    build_prompt fs (l1 ++ f :: l2) repo_url branch prefix = Ok prompt /\
    build_prompt fs (l1 ++ l2) repo_url branch prefix = Ok prompt.
Proof.
  intros Hread.
  destruct (build_prompt_total repo_url branch fs (l1 ++ l2) prefix)
    as (body & Hrun).
  eexists. split; [|exact Hrun].
  unfold build_prompt in *.
  now rewrite (build_body_skip fs l1 l2 f EmptyString e Hread).
Qed.

Lemma build_prompt_skips_unreadable_witness :
  FS.read_text (FS.MkFS (Dir [("r", Dir Examples.repo)]) [])
               ["/"; "r"; "bad.py"] =
    Raise (Exn "UnicodeDecodeError" "'utf-8' codec can't decode byte") /\
  exists prompt,
    build_prompt (FS.MkFS (Dir [("r", Dir Examples.repo)]) [])
      ([["/"; "r"; "main.py"]] ++ ["/"; "r"; "bad.py"] ::
       [["/"; "r"; "src"; "lib"; "c.go"]]) "u" "b" None = Ok prompt /\
    build_prompt (FS.MkFS (Dir [("r", Dir Examples.repo)]) [])
      ([["/"; "r"; "main.py"]] ++ [["/"; "r"; "src"; "lib"; "c.go"]])
      "u" "b" None = Ok prompt.
Proof.
  split; [reflexivity|].
  apply (build_prompt_skips_unreadable
           (FS.MkFS (Dir [("r", Dir Examples.repo)]) [])
           [["/"; "r"; "main.py"]] [["/"; "r"; "src"; "lib"; "c.go"]]
           ["/"; "r"; "bad.py"]
           (Exn "UnicodeDecodeError" "'utf-8' codec can't decode byte")).
  reflexivity.
Defined.

(** C9: for the empty file list [build_prompt] returns the instruction
    header, with the prefix and a line break before it when a prefix is
    given, followed by the line break that precedes the empty body; and a
    run whose clone holds no eligible file still sends one request, whose
    content is that prompt. *)
Theorem empty_file_list_prompt
    (E : env) (repo_url branch : string) (prefix : option string) (st : state) :
  let header := intro_text repo_url branch in
  (forall fs,
      build_prompt fs [] repo_url branch prefix =
      Ok (with_prefix prefix header +:+ nl)) /\
  with_prefix None header = header /\
  (forall c s,
      with_prefix (Some (String c s)) header = String c s +:+ nl +:+ header) /\
  (forall p st1,
      shallow_clone E repo_url branch st = (Ok p, st1) ->
      collect_source_files (st_fs st1) p = [] ->
      api_calls (snd (analyze_repo E repo_url branch prefix st)) =
      api_calls st ++ [completion_request E (with_prefix prefix header +:+ nl)]).
Proof.
  cbv zeta. repeat split.
  intros p st1 Hclone Hnone.
  destruct (analyze_repo_run E repo_url branch prefix st) as (_ & Hrun).
  rewrite Hclone in Hrun. cbn [fst snd] in Hrun.
  destruct Hrun as (prompt & Hprompt & Hapi & _).
  rewrite Hnone in Hprompt. injection Hprompt as <-. exact Hapi.
Qed.

Lemma empty_file_list_prompt_witness :
  collect_source_files
    (st_fs (snd (shallow_clone Examples.E_no_source "u" "b" Examples.st0)))
    (tmp_dir_of Examples.fs0 "0a") = [] /\
  api_calls (snd (analyze_repo Examples.E_no_source "u" "b" (Some "Be brief.")
                    Examples.st0)) =
  [completion_request Examples.E_no_source
     ("Be brief." +:+ nl +:+ intro_text "u" "b" +:+ nl)].
Proof.
  split; [reflexivity|].
  apply (proj2 (proj2 (proj2
           (empty_file_list_prompt Examples.E_no_source "u" "b"
              (Some "Be brief.") Examples.st0)))
           (tmp_dir_of Examples.fs0 "0a")
           (snd (shallow_clone Examples.E_no_source "u" "b" Examples.st0)));
    reflexivity.
Defined.

(** C10: the exclusion test reads every part of the path that the traversal
    yields, the parts of the root included: when a part of the root is an
    excluded name, nothing is collected, whatever the clone holds. *)
Theorem collect_skips_under_excluded_root
    (fs : FS.filesystem) (root : path) (seg : string) :
  In seg root ->
  In seg skip_dirs ->
  collect_source_files fs root = [].
Proof.
  intros Hroot Hskip. rewrite collect_filter.
  apply filter_none. intros p Hin.
  destruct (rglob_below fs root p Hin) as (rel & _ & ->).
  unfold keeps.
  replace (existsb (fun skip => mem skip (root ++ rel)) skip_dirs) with true;
    [reflexivity|].
  symmetry. apply skipped_iff. exists seg.
  split; [apply in_or_app; now left | exact Hskip].
Qed.

Lemma collect_skips_under_excluded_root_witness :
  In "build" (tmp_dir_of Examples.fs_build "0a") /\
  In "build" skip_dirs /\
  FS.is_file Examples.fs_build (tmp_dir_of Examples.fs_build "0a" ++ ["main.py"])
    = true /\
  collect_source_files Examples.fs_build (tmp_dir_of Examples.fs_build "0a") = [].
Proof.
  split; [simpl; tauto|]. split; [simpl; tauto|]. split; [reflexivity|].
  apply (collect_skips_under_excluded_root Examples.fs_build
           (tmp_dir_of Examples.fs_build "0a") "build"); simpl; tauto.
Defined.

(** * Further properties of the program *)

(** ** The run, stage by stage *)

Lemma analyze_repo_stages
    (E : env) (repo_url branch : string) (prefix : option string) (st : state) :
  analyze_repo E repo_url branch prefix st =
  (Ok tt, finish E (run_body E repo_url branch prefix st)).
Proof.
  unfold analyze_repo, run_body, try_finally, try_except.
  unfold bind at 1, set_repo_path at 1.
  unfold bind at 1, stderr_write at 1. unfold bind at 1, stderr_write at 1.
  unfold bind at 1.
  cbn [st_fs stdout stderr clone_calls api_calls repo_path].
  unfold before_clone.
  destruct (shallow_clone E repo_url branch _) as [[p|e] st1].
  - run_step.
    destruct (build_prompt (st_fs st1) _ repo_url branch prefix) as [prompt|e].
    + run_step.
      fold (completion_request E prompt).
      destruct (post_chat E _) as [e|content]; run_step; unfold finish, report;
        cbn [st_fs stdout stderr clone_calls api_calls repo_path];
        destruct (FS.exists_ (st_fs st1) p); reflexivity.
    + run_step. unfold finish, report.
      cbn [st_fs stdout stderr clone_calls api_calls repo_path].
      destruct (FS.exists_ (st_fs st1) p); reflexivity.
  - run_step. unfold finish, report.
    cbn [st_fs stdout stderr clone_calls api_calls repo_path].
    destruct (repo_path st1) as [p|]; [|reflexivity].
    destruct (FS.exists_ (st_fs st1) p); reflexivity.
Qed.

(** ** The file system outside the scratch directory *)

Module FSFrame.
Import FS.

Lemma assoc_others_other (a b : string) (es : entries) :
  (a =? b) = false -> assoc a (others b es) = assoc a es.
Proof.
  intros Hab. induction es as [|[k c] tl IH]; simpl; [reflexivity|].
  destruct (k =? b) eqn:Hkb; simpl.
  - apply String.eqb_eq in Hkb. subst k.
    rewrite String.eqb_sym, Hab. exact IH.
  - now rewrite IH.
Qed.

Lemma assoc_alter_entry_other f (a b : string) (es : entries) :
  (a =? b) = false -> assoc a (alter_entry f b es) = assoc a es.
Proof.
  intros Hab. induction es as [|[k c] tl IH]; simpl.
  - destruct (f None); simpl; [|reflexivity].
    now rewrite String.eqb_sym, Hab.
  - destruct (k =? b) eqn:Hkb.
    + apply String.eqb_eq in Hkb. subst k.
      rewrite (String.eqb_sym b a), Hab.
      destruct (f (Some c)); simpl.
      * rewrite (String.eqb_sym b a), Hab. now apply assoc_others_other.
      * now apply assoc_others_other.
    + simpl. now rewrite IH.
Qed.

(** An update is not seen at a path that parts ways with its target. *)
Lemma walk_alter_diverges f (segs : list string) :
  forall n q,
    diverges segs q = true -> walk (alter_at f n segs) q = walk n q.
Proof.
  induction segs as [|b segs IH]; intros n q Hd; [discriminate|].
  destruct q as [|a q]; [discriminate|].
  destruct n as [t|es]; [reflexivity|].
  cbn [diverges] in Hd.
  destruct (b =? a) eqn:Hba.
  - apply String.eqb_eq in Hba. subst a.
    destruct segs as [|x segs]; [discriminate|].
    cbn [alter_at]. destruct (assoc b es) as [c|] eqn:Hb; [|reflexivity].
    cbn [walk]. rewrite FSFacts.assoc_alter_entry, Hb. now apply IH.
  - assert (Hab : (a =? b) = false) by now rewrite String.eqb_sym.
    destruct segs as [|x segs]; cbn [alter_at].
    + cbn [walk]. now rewrite assoc_alter_entry_other.
    + destruct (assoc b es) as [c|]; [|reflexivity].
      cbn [walk]. now rewrite assoc_alter_entry_other.
Qed.

Lemma diverges_app (p r q : list string) :
  diverges p q = true -> diverges (p ++ r) q = true.
Proof.
  revert q; induction p as [|x p IH]; intros q H; [discriminate|].
  destruct q as [|y q]; [discriminate|].
  cbn [app diverges] in *. destruct (x =? y); [now apply IH | reflexivity].
Qed.

(** An update below a directory leaves it a directory. *)
Lemma walk_alter_keeps_dir f (segs : list string) (s : string) :
  forall n es,
    walk n segs = Some (Dir es) ->
    exists es', walk (alter_at f n (segs ++ [s])) segs = Some (Dir es').
Proof.
  induction segs as [|a segs IH]; intros n es Hw.
  - simpl in Hw. injection Hw as ->. cbn [app alter_at walk]. now eexists.
  - destruct n as [t|es0]; [discriminate|].
    simpl in Hw. cbn [app]. rewrite FSFacts.alter_at_cons.
    destruct (assoc a es0) as [c|] eqn:Ha; [|discriminate].
    cbn [walk]. rewrite FSFacts.assoc_alter_entry. now apply IH with (es := es).
Qed.

Lemma same_outside_refl (area : list string) (fs : filesystem) :
  same_outside area fs fs.
Proof. now split. Qed.

Lemma same_outside_update (area r : list string) (fs fs' : filesystem) f
    (p : path) :
  same_outside area fs fs' ->
  resolve fs' p = area ++ r ->
  same_outside area fs (update fs' f p).
Proof.
  intros [Hcwd Hsame] Hp. split; [exact Hcwd|].
  intros q Hq. cbn [update fs_root]. rewrite Hp.
  rewrite walk_alter_diverges by now apply diverges_app.
  now apply Hsame.
Qed.

(** [mkdir(exist_ok=True)] on a directory changes nothing. *)
Lemma mkdir_existing_dir (fs : filesystem) (p : path) :
  is_dir fs p = true -> mkdir false true fs p = inr fs.
Proof.
  intros Hdir. unfold mkdir.
  assert (Hos : exists e, os_mkdir fs p = inl e /\
                          (exc_type e =? "FileNotFoundError") = false).
  { unfold os_mkdir, is_dir in *. destruct (lookup fs p); [|discriminate].
    now eexists. }
  destruct Hos as (e & Hos & He).
  destruct (List.length p); cbn [mkdir_fuel]; rewrite Hos, He, Hdir; reflexivity.
Qed.

End FSFrame.

Section RunFileSystem.
Variable E : env.
Variables repo_url branch : string.
Variable prefix : option string.
Variable st : state.

Let fs : FS.filesystem := st_fs st.
Let tmp : path := tmp_dir_of fs (uuid4_hex E).
Let final : state := snd (analyze_repo E repo_url branch prefix st).

(** The file system at the end of a run: untouched, with the working area
    made, or with the scratch directory made, filled and removed. *)
Lemma run_file_system :
  match FS.mkdir false true fs (base_tmp fs) with
  | inl _ => st_fs final = fs
  | inr fs1 =>
      match FS.mkdir true false fs1 tmp with
      | inl _ => st_fs final = fs1
      | inr fs2 =>
          exists es,
            st_fs final =
              FS.rmtree (undeletable E)
                        (FS.update fs2 (fun _ => Some (Dir es)) tmp) tmp
      end
  end.
Proof.
  destruct (analyze_repo_run E repo_url branch prefix st) as (_ & Hrun).
  fold final in Hrun.
  rewrite (shallow_clone_cases E repo_url branch st) in Hrun.
  cbv zeta in Hrun. fold fs tmp in Hrun.
  destruct (FS.mkdir false true fs (base_tmp fs)) as [e|fs1] eqn:H1.
  { cbn [fst snd] in Hrun. now destruct Hrun as (_ & _ & ->). }
  destruct (mkdir_base_post _ (uuid4_hex E) _ H1) as (Hbase & _).
  destruct (FS.mkdir true false fs1 tmp) as [e|fs2] eqn:H2.
  { cbn [fst snd] in Hrun. now destruct Hrun as (_ & _ & ->). }
  destruct (mkdir_tmp_post _ _ _ _ Hbase H2) as (_ & Hbase2 & _).
  destruct (clone_from E repo_url branch) as [content|partial cause];
    cbn [fst snd st_fs] in Hrun.
  - exists content.
    destruct Hrun as (prompt & _ & _ & -> & _). unfold cleanup, FS.exists_.
    fold tmp. unfold tmp, fs.
    now rewrite (lookup_cloned _ _ _ content Hbase2).
  - exists partial. now destruct Hrun as (_ & _ & ->).
Qed.

(** The Fetcher as [analyze_repo] calls it, after the first two
    diagnostics. *)
Lemma shallow_clone_before :
  shallow_clone E repo_url branch (before_clone repo_url branch st) =
  (fst (shallow_clone E repo_url branch st),
   MkState (st_fs (snd (shallow_clone E repo_url branch st)))
           (stdout st)
           (stderr (before_clone repo_url branch st))
           (clone_calls (snd (shallow_clone E repo_url branch st)))
           (api_calls st) None).
Proof.
  rewrite !shallow_clone_cases. cbv zeta.
  cbn [before_clone st_fs stdout stderr clone_calls api_calls repo_path].
  destruct (FS.mkdir false true _ _) as [e|fs1]; [reflexivity|].
  destruct (FS.mkdir true false fs1 _) as [e|fs2]; [reflexivity|].
  destruct (clone_from E repo_url branch); reflexivity.
Qed.

(** The state at the end of a run whose Fetcher raises. *)
Lemma run_on_clone_failure (e : exn) (st1 : state) :
  shallow_clone E repo_url branch st = (Raise e, st1) ->
  final =
  MkState (st_fs st1) (stdout st ++ [json_error (error_msg e)])
          (stderr (before_clone repo_url branch st) ++ [error_msg e +:+ nl])
          (clone_calls st1) (api_calls st) None.
Proof.
  intros Hclone. unfold final.
  rewrite analyze_repo_stages. cbn [snd]. unfold run_body.
  rewrite shallow_clone_before, Hclone. reflexivity.
Qed.

(** The state at the end of a run whose Fetcher returns, by the answer of
    the completion endpoint. *)
Lemma run_on_clone_success (p : path) (st1 : state) (prompt : string) :
  shallow_clone E repo_url branch st = (Ok p, st1) ->
  build_prompt (st_fs st1) (collect_source_files (st_fs st1) p)
               repo_url branch prefix = Ok prompt ->
  let trace :=
    (((stderr (before_clone repo_url branch st) ++
       ["DEBUG: Clone successful. Path: " +:+ Path.str p +:+ nl]) ++
      ["DEBUG: Collected " +:+
       str_of_nat (List.length (collect_source_files (st_fs st1) p)) +:+
       " source files." +:+ nl]) ++
     ["DEBUG: Prompt built. Size: " +:+
      str_of_nat (String.length prompt) +:+ " chars." +:+ nl]) ++
    ["DEBUG: Calling Cerebras API at " +:+
     (CEREBRAS_BASE_URL (env_config E) +:+ "/chat/completions") +:+
     "..." +:+ nl] in
  final =
  MkState (FS.rmtree (undeletable E) (st_fs st1) p)
          (stdout st ++
           [match post_chat E (completion_request E prompt) with
            | inr content => content
            | inl e => json_error (error_msg e)
            end])
          ((trace ++
            [match post_chat E (completion_request E prompt) with
             | inr _ => "DEBUG: API call successful." +:+ nl
             | inl e => error_msg e +:+ nl
             end]) ++
           ["DEBUG: Cleaning up temp directory..." +:+ nl])
          (clone_calls st1)
          (api_calls st ++ [completion_request E prompt])
          (Some p).
Proof.
  intros Hclone Hprompt. cbv zeta. unfold final.
  rewrite analyze_repo_stages. cbn [snd]. unfold run_body.
  rewrite shallow_clone_before, Hclone.
  cbn [fst snd st_fs stdout stderr clone_calls api_calls repo_path].
  rewrite Hprompt.
  assert (Hex : FS.exists_ (st_fs st1) p = true).
  { apply shallow_clone_ok in Hclone.
    destruct Hclone as (-> & _ & (content & _ & Hdir) & _).
    unfold FS.exists_. now rewrite Hdir. }
  destruct (post_chat E (completion_request E prompt)) as [e|content];
    unfold finish, report;
    cbn [st_fs stdout stderr clone_calls api_calls repo_path];
    rewrite Hex; reflexivity.
Qed.

End RunFileSystem.

(** ** The run: outcomes, diagnostics and the file system *)

(** X1: when the clone succeeds and the completion call fails, the run
    prints the envelope of that failure, has sent that one request and no
    other, and has called [shutil.rmtree] on the scratch directory, which
    is gone when no removal below it is refused. *)
Theorem api_failure_is_reported
    (E : env) (repo_url branch : string) (prefix : option string) (st : state)
    (p : path) (st1 : state) (prompt : string) (e : exn) :
  shallow_clone E repo_url branch st = (Ok p, st1) ->
  build_prompt (st_fs st1) (collect_source_files (st_fs st1) p)
               repo_url branch prefix = Ok prompt ->
  post_chat E (completion_request E prompt) = inl e ->
  let final := snd (analyze_repo E repo_url branch prefix st) in
  stdout final = stdout st ++ [json_error (error_msg e)] /\
  api_calls final = api_calls st ++ [completion_request E prompt] /\
  st_fs final = FS.rmtree (undeletable E) (st_fs st1) p /\
  ((forall rel, undeletable E (p ++ rel) = false) ->
   FS.exists_ (st_fs final) p = false).
Proof.
  intros Hclone Hprompt Hpost. cbv zeta.
  rewrite (run_on_clone_success E repo_url branch prefix st p st1 prompt
             Hclone Hprompt).
  cbn [st_fs stdout api_calls]. rewrite Hpost. repeat split.
  intros Hfree.
  apply shallow_clone_ok in Hclone.
  destruct Hclone as (-> & _ & (content & _ & Hdir) & _).
  apply exists_lookup. now apply lookup_rmtree_clean with (es := content).
Qed.

Lemma api_failure_is_reported_witness :
  stdout (snd (analyze_repo Examples.E_api_down "u" "b" None Examples.st0)) =
    [json_error ("ERROR in Python analyzer: HTTPStatusError: " +:+
                 "Server error '500 Internal Server Error'")] /\
  List.length
    (api_calls (snd (analyze_repo Examples.E_api_down "u" "b" None
                       Examples.st0))) = 1 /\
  FS.exists_
    (st_fs (snd (analyze_repo Examples.E_api_down "u" "b" None Examples.st0)))
    (tmp_dir_of Examples.fs0 "0a") = false.
Proof.
  destruct (api_failure_is_reported Examples.E_api_down "u" "b" None
              Examples.st0 (tmp_dir_of Examples.fs0 "0a")
              (snd (shallow_clone Examples.E_api_down "u" "b" Examples.st0))
              (match build_prompt
                       (st_fs (snd (shallow_clone Examples.E_api_down "u" "b"
                                      Examples.st0)))
                       (collect_source_files
                          (st_fs (snd (shallow_clone Examples.E_api_down
                                         "u" "b" Examples.st0)))
                          (tmp_dir_of Examples.fs0 "0a")) "u" "b" None with
               | Ok prompt => prompt
               | Raise _ => EmptyString
               end)
              (Exn "HTTPStatusError" "Server error '500 Internal Server Error'")
              eq_refl eq_refl eq_refl) as (Hout & Hapi & _ & Hfs).
  split; [exact Hout|]. split; [|apply Hfs; reflexivity].
  rewrite Hapi. reflexivity.
Defined.

(** X2: when the clone and the completion call succeed, the run prints the
    content of the answer and nothing else, has sent one request, called
    [shutil.rmtree] on the scratch directory, which is gone when no removal
    below it is refused, and written its eight diagnostics, with the number
    of collected files and the size of the prompt, to the diagnostic
    channel. *)
Theorem successful_run_relays_content
    (E : env) (repo_url branch : string) (prefix : option string) (st : state)
    (p : path) (st1 : state) (prompt content : string) :
  shallow_clone E repo_url branch st = (Ok p, st1) ->
  build_prompt (st_fs st1) (collect_source_files (st_fs st1) p)
               repo_url branch prefix = Ok prompt ->
  post_chat E (completion_request E prompt) = inr content ->
  let final := snd (analyze_repo E repo_url branch prefix st) in
  stdout final = stdout st ++ [content] /\
  api_calls final = api_calls st ++ [completion_request E prompt] /\
  st_fs final = FS.rmtree (undeletable E) (st_fs st1) p /\
  ((forall rel, undeletable E (p ++ rel) = false) ->
   FS.exists_ (st_fs final) p = false) /\
  stderr final =
    stderr st ++
    ["DEBUG: Starting analysis for " +:+ repo_url +:+ " on branch " +:+
     branch +:+ nl;
     "DEBUG: Attempting shallow clone..." +:+ nl;
     "DEBUG: Clone successful. Path: " +:+ Path.str p +:+ nl;
     "DEBUG: Collected " +:+
     str_of_nat (List.length (collect_source_files (st_fs st1) p)) +:+
     " source files." +:+ nl;
     "DEBUG: Prompt built. Size: " +:+ str_of_nat (String.length prompt) +:+
     " chars." +:+ nl;
     "DEBUG: Calling Cerebras API at " +:+
     (CEREBRAS_BASE_URL (env_config E) +:+ "/chat/completions") +:+ "..." +:+ nl;
     "DEBUG: API call successful." +:+ nl;
     "DEBUG: Cleaning up temp directory..." +:+ nl].
Proof.
  intros Hclone Hprompt Hpost. cbv zeta.
  rewrite (run_on_clone_success E repo_url branch prefix st p st1 prompt
             Hclone Hprompt).
  cbn [st_fs stdout stderr api_calls before_clone]. rewrite Hpost.
  repeat split.
  - intros Hfree. apply shallow_clone_ok in Hclone.
    destruct Hclone as (-> & _ & (body & _ & Hdir) & _).
    apply exists_lookup. now apply lookup_rmtree_clean with (es := body).
  - rewrite <- !app_assoc. reflexivity.
Qed.

Lemma successful_run_relays_content_witness :
  stdout (snd (analyze_repo Examples.E_ok "u" "b" None Examples.st0)) =
    [Examples.pretty_json] /\
  List.length
    (stderr (snd (analyze_repo Examples.E_ok "u" "b" None Examples.st0))) = 8.
Proof.
  destruct (successful_run_relays_content Examples.E_ok "u" "b" None
              Examples.st0 (tmp_dir_of Examples.fs0 "0a")
              (snd (shallow_clone Examples.E_ok "u" "b" Examples.st0))
              (match build_prompt
                       (st_fs (snd (shallow_clone Examples.E_ok "u" "b"
                                      Examples.st0)))
                       (collect_source_files
                          (st_fs (snd (shallow_clone Examples.E_ok
                                         "u" "b" Examples.st0)))
                          (tmp_dir_of Examples.fs0 "0a")) "u" "b" None with
               | Ok prompt => prompt
               | Raise _ => EmptyString
               end)
              Examples.pretty_json
              eq_refl eq_refl eq_refl) as (Hout & _ & _ & _ & Herr).
  split; [exact Hout|]. rewrite Herr. reflexivity.
Defined.

(** X3: when [shallow_clone] raises, the diagnostic channel receives the
    two opening diagnostics and the error message, and nothing after them:
    no diagnostic reports a clone, a prompt, a call or a clean-up. *)
Theorem clone_failure_diagnostics
    (E : env) (repo_url branch : string) (prefix : option string) (st : state)
    (e : exn) (st1 : state) :
  shallow_clone E repo_url branch st = (Raise e, st1) ->
  stderr (snd (analyze_repo E repo_url branch prefix st)) =
    stderr st ++
    ["DEBUG: Starting analysis for " +:+ repo_url +:+ " on branch " +:+
     branch +:+ nl;
     "DEBUG: Attempting shallow clone..." +:+ nl;
     "ERROR in Python analyzer: " +:+ exc_type e +:+ ": " +:+ exc_msg e +:+ nl].
Proof.
  intros Hclone.
  rewrite (run_on_clone_failure E repo_url branch prefix st e st1 Hclone).
  cbn [stderr before_clone]. rewrite <- !app_assoc.
  unfold error_msg. rewrite !append_assoc. reflexivity.
Qed.

Lemma clone_failure_diagnostics_witness :
  stderr (snd (analyze_repo Examples.E_no_branch "u" "nope" None Examples.st0)) =
    ["DEBUG: Starting analysis for u on branch nope" +:+ nl;
     "DEBUG: Attempting shallow clone..." +:+ nl;
     "ERROR in Python analyzer: RuntimeError: Git clone failed: Remote branch nope not found"
     +:+ nl].
Proof.
  apply (clone_failure_diagnostics Examples.E_no_branch "u" "nope" None
           Examples.st0
           (Exn "RuntimeError" "Git clone failed: Remote branch nope not found")
           (snd (shallow_clone Examples.E_no_branch "u" "nope" Examples.st0))).
  reflexivity.
Defined.

(** X4: a run tries the clone at most once and sends at most one request;
    a request is sent only after the one clone attempt, and its content is
    the header followed by a body of at most 15000 characters. *)
Theorem at_most_one_clone_and_request
    (E : env) (repo_url branch : string) (prefix : option string) (st : state) :
  let final := snd (analyze_repo E repo_url branch prefix st) in
  let attempt := (repo_url, tmp_dir_of (st_fs st) (uuid4_hex E), branch) in
  (clone_calls final = clone_calls st \/
   clone_calls final = clone_calls st ++ [attempt]) /\
  (api_calls final = api_calls st \/
   exists body,
     clone_calls final = clone_calls st ++ [attempt] /\
     api_calls final =
       api_calls st ++
       [completion_request E
          (with_prefix prefix (intro_text repo_url branch) +:+ nl +:+ body)] /\
     String.length body <= max_chars).
Proof.
  cbv zeta.
  destruct (shallow_clone E repo_url branch st) as [[p|e] st1] eqn:Hclone.
  - destruct (build_body_sections (st_fs st1)
                (collect_source_files (st_fs st1) p) EmptyString)
      as (k & Hbody & Hle & _); [simpl; lia|].
    cbn [String.append] in Hbody, Hle.
    assert (Hprompt :
      build_prompt (st_fs st1) (collect_source_files (st_fs st1) p)
                   repo_url branch prefix =
      Ok (with_prefix prefix (intro_text repo_url branch) +:+ nl +:+
          concat_str (firstn k (sections (st_fs st1)
                                  (collect_source_files (st_fs st1) p))))).
    { unfold build_prompt. now rewrite Hbody. }
    rewrite (run_on_clone_success E repo_url branch prefix st p st1 _
               Hclone Hprompt).
    cbn [clone_calls api_calls].
    apply shallow_clone_ok in Hclone. destruct Hclone as (_ & _ & _ & ->).
    split; [now right|]. right. eexists. repeat split. exact Hle.
  - rewrite (run_on_clone_failure E repo_url branch prefix st e st1 Hclone).
    cbn [clone_calls api_calls]. split; [|now left].
    pose proof (shallow_clone_cases E repo_url branch st) as Hc.
    cbv zeta in Hc. rewrite Hclone in Hc.
    destruct (FS.mkdir false true _ _) as [e0|fs1].
    { injection Hc as _ <-. now left. }
    destruct (FS.mkdir true false fs1 _) as [e0|fs2].
    { injection Hc as _ ->. now left. }
    destruct (clone_from E repo_url branch); [discriminate|].
    injection Hc as _ ->. now right.
Qed.

(** X5: once [temp_clones] is in place, it stays: the run removes the
    scratch directory inside it, never the working area itself. *)
Theorem work_area_persists
    (E : env) (repo_url branch : string) (prefix : option string) (st : state)
    (fs1 : FS.filesystem) :
  FS.mkdir false true (st_fs st) (base_tmp (st_fs st)) = inr fs1 ->
  FS.is_dir (st_fs (snd (analyze_repo E repo_url branch prefix st)))
            (base_tmp (st_fs st)) = true.
Proof.
  intros H1.
  pose proof (run_file_system E repo_url branch prefix st) as Hfs.
  cbv zeta in Hfs. rewrite H1 in Hfs.
  destruct (mkdir_base_post _ (uuid4_hex E) _ H1) as ((es & Hbase) & _).
  unfold FS.is_dir. rewrite lookup_base.
  destruct (FS.mkdir true false fs1 _) as [e|fs2] eqn:H2.
  - rewrite Hfs. now rewrite Hbase.
  - destruct (mkdir_tmp_post _ _ _ _ (ex_intro _ es Hbase) H2)
      as (_ & (es2 & Hbase2) & _).
    destruct Hfs as (content & ->).
    destruct (FSFrame.walk_alter_keeps_dir (fun _ => Some (Dir content))
                _ ("cerebra-" +:+ uuid4_hex E) _ _ Hbase2) as (es3 & H3).
    unfold FS.rmtree. cbn [FS.update FS.fs_root FS.fs_cwd].
    change (FS.resolve _ (tmp_dir_of (st_fs st) (uuid4_hex E))) with
      ((FS.fs_cwd (st_fs st) ++ ["temp_clones"]) ++
       ["cerebra-" +:+ uuid4_hex E]).
    match goal with
    | |- context [FS.alter_at ?f _ _] =>
        destruct (FSFrame.walk_alter_keeps_dir f
                    _ ("cerebra-" +:+ uuid4_hex E) _ _ H3) as (es4 & H4)
    end.
    now rewrite H4.
Qed.

Lemma work_area_persists_witness :
  FS.is_dir Examples.fs0 (base_tmp Examples.fs0) = false /\
  FS.is_dir (st_fs (snd (analyze_repo Examples.E_ok "u" "b" None Examples.st0)))
            (base_tmp Examples.fs0) = true.
Proof.
  split; [reflexivity|].
  apply (work_area_persists Examples.E_ok "u" "b" None Examples.st0
           (FS.MkFS (Dir [("w", Dir [("temp_clones", Dir [])])]) ["w"])).
  reflexivity.
Defined.

Lemma resolve_same_cwd (fs fs' : FS.filesystem) (q : path) :
  FS.fs_cwd fs' = FS.fs_cwd fs -> FS.resolve fs' q = FS.resolve fs q.
Proof. intros H. unfold FS.resolve. now rewrite H. Qed.

(** The two [mkdir] calls of the Fetcher change nothing outside the
    working area. *)
Lemma mkdir_base_outside (fs fs1 : FS.filesystem) :
  FS.mkdir false true fs (base_tmp fs) = inr fs1 ->
  same_outside (work_area fs) fs fs1.
Proof.
  intros H. apply FSFacts.mkdir_exist_ok in H.
  destruct H as [[-> _] | Hos]; [apply FSFrame.same_outside_refl|].
  apply FSFacts.os_mkdir_inr in Hos. destruct Hos as (_ & _ & ->).
  apply FSFrame.same_outside_update with (r := []);
    [apply FSFrame.same_outside_refl|].
  unfold work_area. now rewrite app_nil_r.
Qed.

(** X6: a run changes nothing outside the working area: at every path
    that is neither [temp_clones], nor inside it, nor one of the
    directories that lead to it, the file system after the run holds what
    it held before. *)
Theorem run_touches_work_area_only
    (E : env) (repo_url branch : string) (prefix : option string) (st : state)
    (q : path) :
  diverges (work_area (st_fs st)) (FS.resolve (st_fs st) q) = true ->
  FS.lookup (st_fs (snd (analyze_repo E repo_url branch prefix st))) q =
  FS.lookup (st_fs st) q.
Proof.
  intros Hq.
  assert (Hsame : same_outside (work_area (st_fs st)) (st_fs st)
                    (st_fs (snd (analyze_repo E repo_url branch prefix st)))).
  { pose proof (run_file_system E repo_url branch prefix st) as Hfs.
    cbv zeta in Hfs.
    destruct (FS.mkdir false true _ _) as [e|fs1] eqn:H1.
    { rewrite Hfs. apply FSFrame.same_outside_refl. }
    pose proof (mkdir_base_outside _ _ H1) as Hout1.
    destruct (mkdir_base_post _ (uuid4_hex E) _ H1) as ((es & Hbase) & _).
    destruct (FS.mkdir true false fs1 _) as [e|fs2] eqn:H2.
    { now rewrite Hfs. }
    destruct Hfs as (content & ->).
    rewrite FSFacts.mkdir_fresh in H2.
    2:{ unfold tmp_dir_of, base_tmp. rewrite FSFacts.parent_tmp.
        unfold FS.is_dir. fold (base_tmp (st_fs st)).
        now rewrite lookup_base, Hbase. }
    apply FSFacts.os_mkdir_inr in H2. destruct H2 as (_ & _ & ->).
    unfold FS.rmtree.
    repeat (apply FSFrame.same_outside_update
              with (r := ["cerebra-" +:+ uuid4_hex E]); [|reflexivity]).
    exact Hout1. }
  destruct Hsame as (Hcwd & Hwalk).
  unfold FS.lookup. rewrite (resolve_same_cwd _ _ q Hcwd). now apply Hwalk.
Qed.

Lemma run_touches_work_area_only_witness :
  FS.lookup
    (st_fs (snd (analyze_repo Examples.E_ok "u" "b" None Examples.st_home)))
    ["/"; "w"; "notes.txt"] = Some (File (Some "keep")).
Proof.
  rewrite (run_touches_work_area_only Examples.E_ok "u" "b" None
             Examples.st_home ["/"; "w"; "notes.txt"]); reflexivity.
Defined.

(** X7: when the scratch path of the run exists already, nothing is cloned
    and nothing is sent, the file system is left exactly as it was, with
    the directory that was there, and the envelope reports a
    [FileExistsError]. *)
Theorem scratch_collision_is_left_alone
    (E : env) (repo_url branch : string) (prefix : option string) (st : state)
    (n : node) :
  let final := snd (analyze_repo E repo_url branch prefix st) in
  FS.lookup (st_fs st) (tmp_dir_of (st_fs st) (uuid4_hex E)) = Some n ->
  st_fs final = st_fs st /\
  clone_calls final = clone_calls st /\
  api_calls final = api_calls st /\
  exists e,
    exc_type e = "FileExistsError" /\
    stdout final = stdout st ++ [json_error (error_msg e)].
Proof.
  cbv zeta. intros Hthere.
  assert (Hdir : FS.is_dir (st_fs st) (base_tmp (st_fs st)) = true).
  { rewrite lookup_tmp in Hthere. apply walk_snoc_some in Hthere.
    destruct Hthere as (es & Hbase).
    unfold FS.is_dir. now rewrite lookup_base, Hbase. }
  pose proof (shallow_clone_cases E repo_url branch st) as Hc.
  cbv zeta in Hc.
  rewrite (FSFrame.mkdir_existing_dir _ _ Hdir) in Hc.
  rewrite FSFacts.mkdir_fresh in Hc.
  2:{ unfold tmp_dir_of, base_tmp. rewrite FSFacts.parent_tmp. exact Hdir. }
  unfold FS.os_mkdir in Hc. rewrite Hthere in Hc.
  rewrite (run_on_clone_failure E repo_url branch prefix st _ _ Hc).
  cbn [st_fs stdout clone_calls api_calls]. repeat split.
  eexists. split; [|reflexivity]. reflexivity.
Qed.

Lemma scratch_collision_is_left_alone_witness :
  st_fs (snd (analyze_repo Examples.E_ok "u" "b" None Examples.st_taken)) =
    st_fs Examples.st_taken /\
  clone_calls (snd (analyze_repo Examples.E_ok "u" "b" None Examples.st_taken))
    = [] /\
  api_calls (snd (analyze_repo Examples.E_ok "u" "b" None Examples.st_taken))
    = [].
Proof.
  destruct (scratch_collision_is_left_alone Examples.E_ok "u" "b" None
              Examples.st_taken (Dir [("old.py", File (Some "x"))]) eq_refl)
    as (Hfs & Hclone & Hapi & _).
  repeat split; assumption.
Defined.

(** ** Prompt Builder: where the accumulation stops *)

Lemma build_body_app (fs : FS.filesystem) (l1 rest : list path) :
  forall b body,
    build_body fs l1 b = Ok body ->
    build_body fs (l1 ++ rest) b = Ok body \/
    build_body fs (l1 ++ rest) b = build_body fs rest body.
Proof.
  induction l1 as [|g l1 IH]; intros b body Hrun.
  - simpl in Hrun. injection Hrun as ->. now right.
  - simpl app. rewrite build_body_step in *.
    destruct (FS.read_text fs g) as [content|e]; [|now apply IH].
    cbv zeta in *.
    destruct (max_chars <? _)%nat; [now left | now apply IH].
Qed.

(** X8: the accumulation stops at the first section that does not fit:
    every file after it is left out, whatever its size, so the prompt is
    the prompt of the files before it. *)
Theorem build_prompt_stops_at_first_overflow
    (fs : FS.filesystem) (l1 l2 : list path) (f : path)
    (repo_url branch : string) (prefix : option string)
    (body content : string) :
  build_prompt fs l1 repo_url branch prefix =
    Ok (with_prefix prefix (intro_text repo_url branch) +:+ nl +:+ body) ->
  FS.read_text fs f = Ok content ->
  max_chars < String.length body + String.length (part_of (label_of f) content) ->
  build_prompt fs (l1 ++ f :: l2) repo_url branch prefix =
  build_prompt fs l1 repo_url branch prefix.
Proof.
  intros Hrun Hread Hover. unfold build_prompt in *.
  destruct (build_body fs l1 EmptyString) as [body'|e] eqn:Hbody;
    [|discriminate].
  injection Hrun as Hrun.
  apply append_inj_l in Hrun. injection Hrun as ->.
  destruct (build_body_app fs l1 (f :: l2) _ _ Hbody) as [-> | ->];
    [reflexivity|].
  rewrite build_body_step, Hread. cbv zeta.
  apply Nat.ltb_lt in Hover. now rewrite Hover.
Qed.

Lemma build_prompt_stops_at_first_overflow_witness :
  let files :=
    map (fun n => ["/"; "r"; "src"; n])
        ["a1.py"; "a2.py"; "a3.py"; "a4.py"; "a5.py"; "a6.py"; "a7.py"] in
  build_prompt Examples.fs_long_short
    (files ++ ["/"; "r"; "src"; "a8.py"] :: [["/"; "r"; "src"; "z.py"]])
    "u" "b" None =
  build_prompt Examples.fs_long_short files "u" "b" None.
Proof.
  cbv zeta.
  apply (build_prompt_stops_at_first_overflow Examples.fs_long_short _ _ _
           "u" "b" None
           (match build_body Examples.fs_long_short
                    (map (fun n => ["/"; "r"; "src"; n])
                       ["a1.py"; "a2.py"; "a3.py"; "a4.py"; "a5.py"; "a6.py";
                        "a7.py"]) EmptyString with
            | Ok b => b
            | Raise _ => EmptyString
            end)
           (Examples.filler 3000)).
  - vm_compute. reflexivity.
  - vm_compute. reflexivity.
  - apply Nat.ltb_lt. vm_compute. reflexivity.
Defined.

(** X9: when no file of the list can be read, the prompt is the header
    alone and nothing is raised. *)
Theorem build_prompt_all_unreadable
    (fs : FS.filesystem) (files : list path) (repo_url branch : string)
    (prefix : option string) :
  (forall f, In f files -> exists e, FS.read_text fs f = Raise e) ->
  build_prompt fs files repo_url branch prefix =
  Ok (with_prefix prefix (intro_text repo_url branch) +:+ nl).
Proof.
  intros Hall. unfold build_prompt.
  assert (Hbody : build_body fs files EmptyString = Ok EmptyString).
  { induction files as [|f rest IH]; [reflexivity|].
    rewrite build_body_step.
    destruct (Hall f (or_introl eq_refl)) as (e & ->).
    apply IH. intros g Hg. apply Hall. now right. }
  now rewrite Hbody.
Qed.

Lemma build_prompt_all_unreadable_witness :
  build_prompt (FS.MkFS (Dir [("r", Dir Examples.repo)]) [])
    [["/"; "r"; "bad.py"]; ["/"; "r"; "gone.py"]; ["/"; "r"; "src"]]
    "u" "b" None =
  Ok (intro_text "u" "b" +:+ nl).
Proof.
  apply (build_prompt_all_unreadable
           (FS.MkFS (Dir [("r", Dir Examples.repo)]) [])
           [["/"; "r"; "bad.py"]; ["/"; "r"; "gone.py"]; ["/"; "r"; "src"]]
           "u" "b" None).
  intros f [<- | [<- | [<- | []]]]; eexists; reflexivity.
Defined.

(** ** Start-up and entry point *)

Ltac start_step :=
  cbv beta iota zeta delta
    [main module_init sys_exit bind ret raise of_result print];
  cbn [st_fs stdout stderr clone_calls api_calls repo_path fst snd].

(** X11: without the credential, or with an empty one, the process prints
    the envelope that names the missing variable and exits with status 1,
    whatever its arguments: nothing is created, cloned or sent. *)
Theorem missing_credential_stops_at_startup
    (W : world) (argv : list string) (st : state) (n : Z) :
  py_int W (getenv_default W "CEREBRAS_MAX_TOKENS" "4000") = Ok n ->
  getenv W "CEREBRAS_API_KEY" = None \/
  getenv W "CEREBRAS_API_KEY" = Some EmptyString ->
  exit_status (fst (main W argv st)) = 1 /\
  snd (main W argv st) =
    MkState (st_fs st)
            (stdout st ++ [json_error "CEREBRAS_API_KEY not set in environment"])
            (stderr st) (clone_calls st) (api_calls st) (repo_path st).
Proof.
  intros Hint Hkey. start_step. rewrite Hint.
  destruct Hkey as [-> | ->]; split; reflexivity.
Qed.

Lemma missing_credential_stops_at_startup_witness :
  exit_status (fst (main Examples.W_no_key ["analyzer.py"; "u"; "b"]
                      Examples.st0)) = 1 /\
  snd (main Examples.W_no_key ["analyzer.py"; "u"; "b"] Examples.st0) =
    MkState Examples.fs0
            [json_error "CEREBRAS_API_KEY not set in environment"]
            [] [] [] None.
Proof.
  apply (missing_credential_stops_at_startup Examples.W_no_key
           ["analyzer.py"; "u"; "b"] Examples.st0 4000%Z).
  - reflexivity.
  - left. reflexivity.
Defined.

(** X12: with the configuration in place and fewer than two arguments
    after the script name, the process prints the usage envelope and exits
    with status 1: nothing is created, cloned or sent. *)
Theorem too_few_arguments_print_usage
    (W : world) (argv : list string) (st : state) (n : Z)
    (c : ascii) (key : string) :
  py_int W (getenv_default W "CEREBRAS_MAX_TOKENS" "4000") = Ok n ->
  getenv W "CEREBRAS_API_KEY" = Some (String c key) ->
  List.length argv < 3 ->
  exit_status (fst (main W argv st)) = 1 /\
  snd (main W argv st) =
    MkState (st_fs st)
            (stdout st ++
             [json_error
                "Usage: python cerebras_analyzer.py <repo_url> <branch> [prefix]"])
            (stderr st) (clone_calls st) (api_calls st) (repo_path st).
Proof.
  intros Hint Hkey Hlen. start_step. rewrite Hint, Hkey.
  apply Nat.ltb_lt in Hlen. rewrite Hlen. start_step.
  split; reflexivity.
Qed.

Lemma too_few_arguments_print_usage_witness :
  exit_status (fst (main Examples.W_ready ["analyzer.py"; "u"] Examples.st0))
    = 1 /\
  snd (main Examples.W_ready ["analyzer.py"; "u"] Examples.st0) =
    MkState Examples.fs0
            [json_error
               "Usage: python cerebras_analyzer.py <repo_url> <branch> [prefix]"]
            [] [] [] None.
Proof.
  apply (too_few_arguments_print_usage Examples.W_ready ["analyzer.py"; "u"]
           Examples.st0 4000%Z "s"%char "k-1").
  - reflexivity.
  - reflexivity.
  - simpl. lia.
Defined.

(** X13: with the configuration in place and at least two arguments, the
    process runs [analyze_repo] on the first two arguments, with the third
    as prefix when there is one and with the defaults for the variables
    that are not set; further arguments are ignored; and it exits with
    status 0 whether the run printed an answer or an error envelope. *)
Theorem main_runs_pipeline_and_exits_zero
    (W : world) (script repo_url branch : string) (rest : list string)
    (st : state) (n : Z) (c : ascii) (key : string) :
  py_int W (getenv_default W "CEREBRAS_MAX_TOKENS" "4000") = Ok n ->
  getenv W "CEREBRAS_API_KEY" = Some (String c key) ->
  let cfg :=
    MkConfig (getenv_default W "CEREBRAS_BASE_URL" "https://api.cerebras.net/v1")
             (String c key)
             (getenv_default W "CEREBRAS_MODEL_ID" "llama3.1-70b") n in
  main W (script :: repo_url :: branch :: rest) st =
    analyze_repo (env_of W cfg) repo_url branch (hd_error rest) st /\
  exit_status (fst (main W (script :: repo_url :: branch :: rest) st)) = 0.
Proof.
  intros Hint Hkey. cbv zeta.
  assert (Hmain :
    main W (script :: repo_url :: branch :: rest) st =
    analyze_repo
      (env_of W
         (MkConfig
            (getenv_default W "CEREBRAS_BASE_URL" "https://api.cerebras.net/v1")
            (String c key)
            (getenv_default W "CEREBRAS_MODEL_ID" "llama3.1-70b") n))
      repo_url branch (hd_error rest) st).
  { start_step. rewrite Hint, Hkey. start_step.
    cbn [List.length Nat.ltb Nat.leb nth].
    destruct rest as [|x rest']; reflexivity. }
  split; [exact Hmain|].
  rewrite Hmain.
  destruct (analyze_repo_run (env_of W
         (MkConfig
            (getenv_default W "CEREBRAS_BASE_URL" "https://api.cerebras.net/v1")
            (String c key)
            (getenv_default W "CEREBRAS_MODEL_ID" "llama3.1-70b") n))
      repo_url branch (hd_error rest) st) as (-> & _).
  reflexivity.
Qed.

Lemma main_runs_pipeline_and_exits_zero_witness :
  main Examples.W_ready ["analyzer.py"; "u"; "b"; "Be brief."; "extra"]
       Examples.st0 =
    analyze_repo
      (env_of Examples.W_ready
         (MkConfig "https://api.cerebras.net/v1" "sk-1" "llama3.1-70b" 4000%Z))
      "u" "b" (Some "Be brief.") Examples.st0 /\
  exit_status
    (fst (main Examples.W_ready
            ["analyzer.py"; "u"; "b"; "Be brief."; "extra"] Examples.st0)) = 0.
Proof.
  apply (main_runs_pipeline_and_exits_zero Examples.W_ready "analyzer.py"
           "u" "b" ["Be brief."; "extra"] Examples.st0 4000%Z "s"%char "k-1");
    reflexivity.
Defined.

(** X14: the token limit is converted before the credential is checked:
    when the conversion raises, the process ends with status 1 and nothing
    on the primary output channel, not even the envelope of a missing
    credential. *)
Theorem bad_max_tokens_stops_before_credential_check
    (W : world) (argv : list string) (st : state) (e : exn) :
  py_int W (getenv_default W "CEREBRAS_MAX_TOKENS" "4000") = Raise e ->
  fst (main W argv st) = Raise e /\
  exit_status (fst (main W argv st)) = 1 /\
  stdout (snd (main W argv st)) = stdout st /\
  st_fs (snd (main W argv st)) = st_fs st /\
  clone_calls (snd (main W argv st)) = clone_calls st /\
  api_calls (snd (main W argv st)) = api_calls st.
Proof.
  intros Hint. start_step. rewrite Hint. repeat split.
Qed.

Lemma bad_max_tokens_stops_before_credential_check_witness :
  getenv Examples.W_bad_tokens "CEREBRAS_API_KEY" = None /\
  exit_status (fst (main Examples.W_bad_tokens ["analyzer.py"; "u"; "b"]
                      Examples.st0)) = 1 /\
  stdout (snd (main Examples.W_bad_tokens ["analyzer.py"; "u"; "b"]
                 Examples.st0)) = [].
Proof.
  split; [reflexivity|].
  destruct (bad_max_tokens_stops_before_credential_check Examples.W_bad_tokens
              ["analyzer.py"; "u"; "b"] Examples.st0
              (Exn "ValueError" "invalid literal for int()") eq_refl)
    as (_ & Hexit & Hout & _).
  split; assumption.
Defined.

(** ** The Collector inside the run *)

Lemma collect_nothing_below (fs : FS.filesystem) (root : path) (seg : string) :
  In seg root -> In seg skip_dirs -> collect_source_files fs root = [].
Proof.
  intros Hroot Hskip. rewrite collect_filter.
  apply filter_none. intros p Hin.
  destruct (rglob_below fs root p Hin) as (rel & _ & ->).
  unfold keeps.
  assert (H : existsb (fun skip => mem skip (root ++ rel)) skip_dirs = true).
  { apply skipped_iff. exists seg. split; [|exact Hskip].
    apply in_or_app. now left. }
  now rewrite H.
Qed.

(** X15: a run started in a working directory one of whose parts is an
    excluded name, and whose clone succeeds, sends the header alone to the
    completion endpoint, whatever the repository holds: no file of the
    clone reaches the prompt. *)
Theorem run_below_excluded_directory_sends_header_only
    (E : env) (repo_url branch : string) (prefix : option string) (st : state)
    (seg : string) (p : path) (st1 : state) :
  In seg (FS.fs_cwd (st_fs st)) ->
  In seg skip_dirs ->
  shallow_clone E repo_url branch st = (Ok p, st1) ->
  api_calls (snd (analyze_repo E repo_url branch prefix st)) =
  api_calls st ++
  [completion_request E (with_prefix prefix (intro_text repo_url branch) +:+ nl)].
Proof.
  intros Hcwd Hskip Hclone.
  assert (Hnone : collect_source_files (st_fs st1) p = []).
  { apply collect_nothing_below with (seg := seg); [|exact Hskip].
    apply shallow_clone_ok in Hclone. destruct Hclone as (-> & _).
    unfold tmp_dir_of, base_tmp, Path.joinpath, FS.getcwd.
    apply in_or_app. left. apply in_or_app. left. now right. }
  assert (Hprompt :
    build_prompt (st_fs st1) (collect_source_files (st_fs st1) p)
                 repo_url branch prefix =
    Ok (with_prefix prefix (intro_text repo_url branch) +:+ nl)).
  { now rewrite Hnone. }
  rewrite (run_on_clone_success E repo_url branch prefix st p st1 _
             Hclone Hprompt).
  reflexivity.
Qed.

Lemma run_below_excluded_directory_sends_header_only_witness :
  clone_from Examples.E_ok "u" "b" = CloneOk Examples.repo /\
  api_calls (snd (analyze_repo Examples.E_ok "u" "b" None Examples.st_build)) =
  [completion_request Examples.E_ok (intro_text "u" "b" +:+ nl)].
Proof.
  split; [reflexivity|].
  apply (run_below_excluded_directory_sends_header_only Examples.E_ok "u" "b"
           None Examples.st_build "build"
           (tmp_dir_of (st_fs Examples.st_build) "0a")
           (snd (shallow_clone Examples.E_ok "u" "b" Examples.st_build))).
  - simpl. tauto.
  - simpl. tauto.
  - reflexivity.
Defined.
